(** * pinfoplot: the sampler, the plot builders and the composite renderer

    A shallow embedding of [main.go].  Go values are modelled as follows:
    - [int32], [int64], [uint64] and [time.Duration] are [Z]; the division
      in [New] is Go's, with its wrap-around and its panic on a zero
      divisor, and the clock subtraction behind [time.Since] saturates as
      Go's does;
    - [float64] is Rocq's primitive binary64 [float];
    - a slice is a [list]; indexing is [!!] and an index out of range is a
      panic, as in Go;
    - a Go function returning [(v, error)] returns an [outcome]; a run-time
      panic is a third kind of outcome;
    - the operating system (clock, process table, file system) is explicit
      state threaded through the calls, and the libraries the program links
      against (gopsutil, gonum/plot) are interfaces. *)

From Stdlib Require Import ZArith PrimFloat SpecFloat FloatOps Lia.
From stdpp Require Import base option list strings pretty gmap.

Local Open Scope Z_scope.

(** ** Outcomes of Go calls *)

(** Go [error] values the program can return: the one it builds itself
    with [fmt.Errorf] in [New], and the ones handed back by a library. *)
Inductive error : Type :=
  | ErrNeedTwoSamples
  | ErrExternal (msg : string).

Inductive panic : Type :=
  | DivideByZero
  | IndexOutOfRange
  | MakesliceOutOfRange
  | LibraryPanic (origin : string).

(** [Returned v] is [return v, nil]; [Failed e] is [return nil, e];
    [Unfinished] is not a behaviour of the program: it marks a run cut by
    the bound put on the number of loop iterations. *)
Inductive outcome (A : Type) : Type :=
  | Returned (a : A)
  | Failed (e : error)
  | Panicked (p : panic)
  | Unfinished.

Arguments Returned {A} a.
Arguments Failed {A} e.
Arguments Panicked {A} p.
Arguments Unfinished {A}.

Definition outcome_bind {A B} (f : A -> outcome B) (o : outcome A) : outcome B :=
  match o with
  | Returned a => f a
  | Failed e => Failed e
  | Panicked p => Panicked p
  | Unfinished => Unfinished
  end.

#[global] Instance outcome_mret : MRet outcome := fun _ a => Returned a.
#[global] Instance outcome_mbind : MBind outcome := fun _ _ f o => outcome_bind f o.

(** What a library call answers: a value, or an error message. *)
Inductive reply (A : Type) : Type :=
  | Ans (a : A)
  | Fault (msg : string).

Arguments Ans {A} a.
Arguments Fault {A} msg.

Definition of_fault (r : option string) : outcome unit :=
  match r with
  | None => Returned tt
  | Some msg => Failed (ErrExternal msg)
  end.

(** ** Go arithmetic used by the program *)

Module Go.

Definition minInt64 : Z := - 2 ^ 63.
Definition maxInt64 : Z := 2 ^ 63 - 1.

Definition int64 (z : Z) : Prop := minInt64 <= z <= maxInt64.

Definition wrap64 (z : Z) : Z := (z + 2 ^ 63) mod 2 ^ 64 - 2 ^ 63.

(** [a / b] on [int64]: truncated towards zero, panics on a zero divisor,
    and wraps for [minInt64 / -1]. *)
Definition quot (a b : Z) : outcome Z :=
  if b =? 0 then Panicked DivideByZero else Returned (wrap64 (Z.quot a b)).

(** [a % b] on [int64], for a non-zero constant divisor. *)
Definition rem (a b : Z) : Z := Z.rem a b.

(** [float64(z)] for an integer [z]: rounding to nearest, ties to even. *)
Definition float64 (z : Z) : float :=
  SF2Prim (binary_normalize prec emax z 0 false).

(** [time.Second], in nanoseconds. *)
Definition Second : Z := 1000000000.

(** [time.Duration.Seconds]:
    [sec := d / Second; nsec := d % Second;
     return float64(sec) + float64(nsec)/1e9]. *)
Definition Seconds (d : Z) : float :=
  (float64 (Z.quot d Second) + float64 (rem d Second) / 1e9)%float.

(** [time.Time.Sub] on two monotonic clock readings:
    [d := Duration(te - ue)], saturated when the subtraction overflows. *)
Definition Sub (te ue : Z) : Z :=
  let d := wrap64 (te - ue) in
  if (d <? 0) && (ue <? te) then maxInt64
  else if (0 <? d) && (te <? ue) then minInt64
  else d.

End Go.

(** ** Data model *)

(** [process.MemoryInfoStat] and [process.IOCountersStat] of gopsutil,
    restricted to the fields the program reads (all [uint64]). *)
Record MemoryInfoStat : Type := { RSS : Z; VMS : Z }.
Record IOCountersStat : Type := { ReadCount : Z; WriteCount : Z }.

(** [type sample struct].  [mem] and [io] are pointers in the source; the
    sampler only stores pointers it received together with a nil error. *)
Record sample : Type := {
  mem : MemoryInfoStat;
  io : IOCountersStat;
  cpu : float;
  interval : Z
}.

(** [type ProcessInfo struct].  [StartTime] is kept as the monotonic clock
    reading that [time.Now] attaches to the [time.Time]. *)
Record ProcessInfo : Type := {
  Pid : Z;
  StartTime : Z;
  SamplingInterval : Z;
  Samples : list sample
}.

(** ** Plot builders *)

(** [plotter.XY], [plotter.XYs]. *)
Module plotter.
Record XY : Type := { X : float; Y : float }.
End plotter.
Abbreviation XY := plotter.XY.
Abbreviation XYs := (list plotter.XY).

(** [color.RGBA]. *)
Module color.
Record RGBA : Type := { R : Z; G : Z; B : Z; A : Z }.
End color.
Abbreviation RGBA := color.RGBA.

(** [plotter.Line]: its copy of the data and the two style fields the
    program sets ([LineStyle.Width], [LineStyle.Color]). *)
Record Line : Type := {
  LineXYs : XYs;
  LineWidth : float;
  LineColor : RGBA
}.

Inductive Plotter : Type :=
  | Grid
  | LinePlotter (l : Line).

(** [plot.Plot], restricted to what the builders touch. *)
Record Plot : Type := {
  Title : string;
  XLabel : string;
  YLabel : string;
  plotters : list Plotter;
  Legend : list (string * Line)
}.

(** The part of gonum/plot the builders depend on.  [plot.New] and
    [plotter.NewLine] either fail with an error or succeed; on success
    [NewLine] holds a copy of the points it was given. *)
Class PlotLib : Type := {
  plot_New_fault : option string;
  NewLine_fault : XYs -> option string
}.

(** [vg.Points(1)]: one point is the unit of [vg.Length]. *)
Definition vg_Points (pt : float) : float := pt.

Definition black : RGBA := {| color.R := 0; color.G := 0; color.B := 0; color.A := 255 |}.

Section Builders.
Context `{PlotLib}.

Definition plot_New : outcome Plot :=
  _ ← of_fault plot_New_fault;
  mret {| Title := ""; XLabel := ""; YLabel := ""; plotters := []; Legend := [] |}.

(** [plotter.NewLine(xys)]; the default style is black, one point wide. *)
Definition NewLine (xys : XYs) : outcome Line :=
  _ ← of_fault (NewLine_fault xys);
  mret {| LineXYs := xys; LineWidth := vg_Points 1; LineColor := black |}.

(** [pl.Add(p)] and [pl.Legend.Add(name, l)]. *)
Definition Add (p : Plotter) (pl : Plot) : Plot :=
  {| Title := Title pl; XLabel := XLabel pl; YLabel := YLabel pl;
     plotters := plotters pl ++ [p]; Legend := Legend pl |}.

Definition LegendAdd (name : string) (l : Line) (pl : Plot) : Plot :=
  {| Title := Title pl; XLabel := XLabel pl; YLabel := YLabel pl;
     plotters := plotters pl; Legend := Legend pl ++ [(name, l)] |}.

Definition set_labels (title xl yl : string) (pl : Plot) : Plot :=
  {| Title := title; XLabel := xl; YLabel := yl;
     plotters := plotters pl; Legend := Legend pl |}.

Definition set_style (w : float) (c : RGBA) (l : Line) : Line :=
  {| LineXYs := LineXYs l; LineWidth := w; LineColor := c |}.

(** [make(plotter.XYs, n)]: [n] zero points. *)
Definition make_XYs (n : nat) : XYs := replicate n {| plotter.X := 0; plotter.Y := 0 |}.

(** [pts[i].X = v] and [pts[i].Y = v]. *)
Definition set_X (i : nat) (v : float) (pts : XYs) : outcome XYs :=
  match pts !! i with
  | Some p => Returned (<[i := {| plotter.X := v; plotter.Y := plotter.Y p |}]> pts)
  | None => Panicked IndexOutOfRange
  end.

Definition set_Y (i : nat) (v : float) (pts : XYs) : outcome XYs :=
  match pts !! i with
  | Some p => Returned (<[i := {| plotter.X := plotter.X p; plotter.Y := v |}]> pts)
  | None => Panicked IndexOutOfRange
  end.

(** [pi.Samples[i]]. *)
Definition index {T} (l : list T) (i : nat) : outcome T :=
  match l !! i with
  | Some x => Returned x
  | None => Panicked IndexOutOfRange
  end.

(** [for i, s := range l { body }], threading the variables the body
    assigns to. *)
Fixpoint range {T St} (body : nat -> T -> St -> outcome St)
    (i : nat) (l : list T) (st : St) : outcome St :=
  match l with
  | [] => Returned st
  | s :: l' => st' ← body i s st; range body (S i) l' st'
  end.

Definition MemPlot_body (pi : ProcessInfo) (i : nat) (s : sample)
    (st : XYs * XYs) : outcome (XYs * XYs) :=
  let '(ptsRss, ptsVms) := st in
  ptsRss ← set_X i (Go.Seconds (interval s)) ptsRss;
  ptsVms ← set_X i (Go.Seconds (interval s)) ptsVms;
  si ← index (Samples pi) i;
  ptsRss ← set_Y i (Go.float64 (RSS (mem si)) / 1024)%float ptsRss;
  si ← index (Samples pi) i;
  ptsVms ← set_Y i (Go.float64 (VMS (mem si)) / 1024)%float ptsVms;
  mret (ptsRss, ptsVms).

Definition MemPlot (pi : ProcessInfo) : outcome Plot :=
  pl ← plot_New;
  let pl := set_labels ("Memory Plot of PID " +:+ pretty (Pid pi)) "t (s)" "KB" pl in
  let pl := Add Grid pl in
  let ptsRss := make_XYs (length (Samples pi)) in
  let ptsVms := make_XYs (length (Samples pi)) in
  '(ptsRss, ptsVms) ← range (MemPlot_body pi) 0%nat (Samples pi) (ptsRss, ptsVms);
  lineRss ← NewLine ptsRss;
  let lineRss := set_style (vg_Points 1) {| color.R := 255; color.G := 0; color.B := 0; color.A := 255 |} lineRss in
  let pl := Add (LinePlotter lineRss) pl in
  let pl := LegendAdd "RSS" lineRss pl in
  lineVms ← NewLine ptsVms;
  let lineVms := set_style (vg_Points 1) {| color.R := 0; color.G := 255; color.B := 0; color.A := 255 |} lineVms in
  let pl := Add (LinePlotter lineVms) pl in
  let pl := LegendAdd "VMS" lineVms pl in
  mret pl.

Definition IoPlot_body (pi : ProcessInfo) (i : nat) (s : sample)
    (st : XYs * XYs) : outcome (XYs * XYs) :=
  let '(ptsR, ptsW) := st in
  ptsR ← set_X i (Go.Seconds (interval s)) ptsR;
  ptsW ← set_X i (Go.Seconds (interval s)) ptsW;
  si ← index (Samples pi) i;
  ptsR ← set_Y i (Go.float64 (ReadCount (io si))) ptsR;
  si ← index (Samples pi) i;
  ptsW ← set_Y i (Go.float64 (WriteCount (io si))) ptsW;
  mret (ptsR, ptsW).

(** The second line is built by [plotter.NewLine(ptsR)], as in the
    source; [ptsW] is filled by the loop and not used afterwards. *)
Definition IoPlot (pi : ProcessInfo) : outcome Plot :=
  pl ← plot_New;
  let pl := set_labels ("IO Plot of PID " +:+ pretty (Pid pi)) "t (s)" "op" pl in
  let pl := Add Grid pl in
  let ptsR := make_XYs (length (Samples pi)) in
  let ptsW := make_XYs (length (Samples pi)) in
  '(ptsR, ptsW) ← range (IoPlot_body pi) 0%nat (Samples pi) (ptsR, ptsW);
  lineR ← NewLine ptsR;
  let lineR := set_style (vg_Points 1) {| color.R := 255; color.G := 0; color.B := 0; color.A := 255 |} lineR in
  let pl := Add (LinePlotter lineR) pl in
  let pl := LegendAdd "IO Read" lineR pl in
  lineW ← NewLine ptsR;
  let lineW := set_style (vg_Points 1) {| color.R := 0; color.G := 255; color.B := 0; color.A := 255 |} lineW in
  let pl := Add (LinePlotter lineW) pl in
  let pl := LegendAdd "IO Write" lineW pl in
  mret pl.

Definition CpuPlot_body (pi : ProcessInfo) (i : nat) (s : sample)
    (pts : XYs) : outcome XYs :=
  pts ← set_X i (Go.Seconds (interval s)) pts;
  si ← index (Samples pi) i;
  pts ← set_Y i (cpu si * 100)%float pts;
  mret pts.

Definition CpuPlot (pi : ProcessInfo) : outcome Plot :=
  pl ← plot_New;
  let pl := set_labels ("CPU Plot of PID " +:+ pretty (Pid pi)) "t (s)" "%" pl in
  let pl := Add Grid pl in
  let pts := make_XYs (length (Samples pi)) in
  pts ← range (CpuPlot_body pi) 0%nat (Samples pi) pts;
  line ← NewLine pts;
  let line := set_style (vg_Points 1) {| color.R := 0; color.G := 0; color.B := 0; color.A := 255 |} line in
  let pl := Add (LinePlotter line) pl in
  let pl := LegendAdd "CPU" line pl in
  mret pl.

(** The line series of a panel, in the order they were added. *)
Definition series (pl : Plot) : list Line :=
  omap (fun p => match p with LinePlotter l => Some l | Grid => None end) (plotters pl).

End Builders.

(** ** State-passing computations *)

(** A Go call that reads or changes the world [S]. *)
Definition Run (S A : Type) : Type := S -> outcome A * S.

#[global] Instance Run_mret {S} : MRet (Run S) := fun _ a s => (Returned a, s).
#[global] Instance Run_mbind {S} : MBind (Run S) := fun _ _ f c s =>
  match c s with
  | (Returned a, s') => f a s'
  | (Failed e, s') => (Failed e, s')
  | (Panicked p, s') => (Panicked p, s')
  | (Unfinished, s') => (Unfinished, s')
  end.

Definition lift {S A} (o : outcome A) : Run S A := fun s => (o, s).

(** ** The sampler *)

(** The host the sampler runs on: the monotonic clock behind [time.Now]
    and [time.Since], [time.Sleep], the gopsutil process handle, and the
    run-time's admission of a slice capacity ([make] panics otherwise).
    Every operation may change the world (time passes, the process runs). *)
Class Host (W : Type) : Type := {
  runtimeNano : W -> Z * W;
  time_Sleep : Z -> W -> W;
  process_NewProcess : Z -> W -> reply unit * W;
  proc_IsRunning : Z -> W -> reply bool * W;
  proc_MemoryInfo : Z -> W -> reply MemoryInfoStat * W;
  proc_IOCounters : Z -> W -> reply IOCountersStat * W;
  proc_CPUPercent : Z -> W -> reply float * W;
  makeslice_admits : Z -> bool
}.

(** The calls the sampler makes to its host, with what they answered. *)
Inductive call : Type :=
  | CallNow (t : Z)
  | CallSince (elapsed : Z)
  | CallSleep (d : Z)
  | CallNewProcess (pid : Z) (r : reply unit)
  | CallIsRunning (r : reply bool)
  | CallMemoryInfo (r : reply MemoryInfoStat)
  | CallIOCounters (r : reply IOCountersStat)
  | CallCPUPercent (r : reply float).

(** The world of a sampler run, and the calls made so far, oldest first. *)
Record machine (W : Type) : Type := { host : W; calls : list call }.
Arguments host {W} m.
Arguments calls {W} m.

Definition of_reply {A} (r : reply A) : outcome A :=
  match r with
  | Ans a => Returned a
  | Fault msg => Failed (ErrExternal msg)
  end.

Section Sampler.
Context {W : Type} `{Host W}.

Definition ask {A} (op : W -> reply A * W) (tag : reply A -> call) : Run (machine W) A :=
  fun m =>
    let '(r, w) := op (host m) in
    (of_reply r, {| host := w; calls := calls m ++ [tag r] |}).

(** [time.Now()]. *)
Definition time_Now : Run (machine W) Z := fun m =>
  let '(t, w) := runtimeNano (host m) in
  (Returned t, {| host := w; calls := calls m ++ [CallNow t] |}).

(** [time.Since(start)]. *)
Definition time_Since (start : Z) : Run (machine W) Z := fun m =>
  let '(t, w) := runtimeNano (host m) in
  let d := Go.Sub t start in
  (Returned d, {| host := w; calls := calls m ++ [CallSince d] |}).

Definition Sleep (d : Z) : Run (machine W) unit := fun m =>
  (Returned tt, {| host := time_Sleep d (host m); calls := calls m ++ [CallSleep d] |}).

Definition NewProcess (pid : Z) : Run (machine W) unit :=
  ask (process_NewProcess pid) (CallNewProcess pid).
Definition IsRunning (proc : Z) : Run (machine W) bool :=
  ask (proc_IsRunning proc) CallIsRunning.
Definition MemoryInfo (proc : Z) : Run (machine W) MemoryInfoStat :=
  ask (proc_MemoryInfo proc) CallMemoryInfo.
Definition IOCounters (proc : Z) : Run (machine W) IOCountersStat :=
  ask (proc_IOCounters proc) CallIOCounters.
Definition CPUPercent (proc : Z) : Run (machine W) float :=
  ask (proc_CPUPercent proc) CallCPUPercent.

(** [make([]sample, 0, sampleNo)]. *)
Definition make_samples (cap : Z) : outcome (list sample) :=
  if makeslice_admits cap then Returned [] else Panicked MakesliceOutOfRange.

(** [pi.Samples = append(pi.Samples, sample)]. *)
Definition append (pi : ProcessInfo) (s : sample) : ProcessInfo :=
  {| Pid := Pid pi; StartTime := StartTime pi;
     SamplingInterval := SamplingInterval pi;
     Samples := Samples pi ++ [s] |}.

(** The loop condition [duration == 0 || t <= duration && running];
    in Go [&&] binds tighter than [||]. *)
Definition keep_sampling (duration t : Z) (running : bool) : bool :=
  (duration =? 0) || ((t <=? duration) && running).

(** The [for] loop of [New].  [fuel] bounds the number of iterations. *)
Fixpoint sampling (fuel : nat) (proc start duration interval : Z)
    (pi : ProcessInfo) (running : bool) : Run (machine W) ProcessInfo :=
  t ← time_Since start;
  if keep_sampling duration t running then
    match fuel with
    | O => lift Unfinished
    | S fuel' =>
        mem ← MemoryInfo proc;
        io ← IOCounters proc;
        c ← CPUPercent proc;
        let sample := Build_sample mem io c t in
        let pi := append pi sample in
        _ ← Sleep interval;
        running ← IsRunning proc;
        sampling fuel' proc start duration interval pi running
    end
  else mret pi.

Definition New (fuel : nat) (pid duration interval : Z) : Run (machine W) ProcessInfo :=
  sampleNo ← lift (Go.quot duration interval);
  if sampleNo <? 2 then lift (Failed ErrNeedTwoSamples) else
  _ ← NewProcess pid;
  start ← time_Now;
  samples ← lift (make_samples sampleNo);
  let pi := {| Pid := pid; StartTime := start;
               SamplingInterval := interval; Samples := samples |} in
  running ← IsRunning pid;
  sampling fuel pid start duration interval pi running.

(** A metric query (memory, I/O or CPU) that answered with an error. *)
Definition failed_query (c : call) : option string :=
  match c with
  | CallMemoryInfo (Fault msg) => Some msg
  | CallIOCounters (Fault msg) => Some msg
  | CallCPUPercent (Fault msg) => Some msg
  | _ => None
  end.

End Sampler.

(** What Go's [time] package promises of the monotonic clock: readings are
    [int64] values that never go back, whatever else happens in between.
    [mono w] is the clock's value in world [w]. *)
Class SteadyClock (W : Type) `{Host W} : Type := {
  mono : W -> Z;
  runtimeNano_steady w t w' :
    runtimeNano w = (t, w') -> Go.int64 t /\ mono w <= t <= mono w';
  time_Sleep_steady d w : mono w <= mono (time_Sleep d w);
  NewProcess_steady pid w : mono w <= mono (process_NewProcess pid w).2;
  IsRunning_steady p w : mono w <= mono (proc_IsRunning p w).2;
  MemoryInfo_steady p w : mono w <= mono (proc_MemoryInfo p w).2;
  IOCounters_steady p w : mono w <= mono (proc_IOCounters p w).2;
  CPUPercent_steady p w : mono w <= mono (proc_CPUPercent p w).2
}.

(** What [time.Sleep] promises: when it returns, at least [d] has passed
    (as far as the clock can count). *)
Class TickingClock (W : Type) `{SteadyClock W} : Prop := {
  time_Sleep_ticks d w :
    0 <= d -> Z.min Go.maxInt64 (mono w + d) <= mono (time_Sleep d w)
}.

(** A host for experiments: a clock that only [time.Sleep] advances, a
    process known to the system or not, alive until [exit_at], whose I/O
    counters become unreadable from [io_denied_at] on. *)
Record fake : Type := {
  now : Z;
  known : bool;
  exit_at : Z;
  io_denied_at : Z
}.

Definition fake_sleep (d : Z) (w : fake) : fake :=
  {| now := Z.max 0 (now w) + Z.max 0 d; known := known w;
     exit_at := exit_at w; io_denied_at := io_denied_at w |}.

(** The clock reading of the fake host, kept within [int64]. *)
Definition fake_clock (w : fake) : Z := Z.max 0 (Z.min Go.maxInt64 (now w)).

#[global] Instance fake_Host : Host fake := {|
  runtimeNano w := (fake_clock w, w);
  time_Sleep := fake_sleep;
  process_NewProcess _ w :=
    (if known w then Ans tt else Fault "process does not exist", w);
  proc_IsRunning _ w := (Ans (now w <? exit_at w), w);
  proc_MemoryInfo _ w := (Ans {| RSS := 4096 * (1 + now w); VMS := 1048576 |}, w);
  proc_IOCounters _ w :=
    (if now w <? io_denied_at w
     then Ans {| ReadCount := 5 * now w; WriteCount := 7 * now w |}
     else Fault "permission denied", w);
  proc_CPUPercent _ w := (Ans 0.25%float, w);
  makeslice_admits cap := (0 <=? cap) && (cap <=? 2 ^ 43)
|}.

Definition boot (w : fake) : machine fake := {| host := w; calls := [] |}.

(** ** The composite renderer *)

(** [draw.Tiles], restricted to the fields [Save] sets. *)
Record Tiles : Type := { Rows : nat; Cols : nat }.

(** [vg.Rectangle], the area of a [draw.Canvas] inside the image. *)
Record Rectangle : Type := { MinX : float; MinY : float; MaxX : float; MaxY : float }.

(** The [vgimg.Canvas] that [Save] draws on: its size and what has been
    drawn on it so far, oldest first. *)
Record Image : Type := {
  ImageWidth : float;
  ImageHeight : float;
  drawn : list (Rectangle * Plot)
}.

(** A [[][]*plot.Plot]; a nil entry is [None]. *)
Abbreviation Panels := (list (list (option Plot))).

(** The part of gonum/plot's canvas layer and of the [os] package [Save]
    depends on: [vgimg.New] may refuse a size and [plot.Align] may refuse a
    grid (both by panicking); [os.Create] and the PNG writer may fail for a
    path. *)
Class Backend : Type := {
  vgimg_admits : float -> float -> bool;
  plot_Align : Panels -> Tiles -> float -> float -> option (list (list Rectangle));
  os_Create_fault : string -> option string;
  WriteTo_fault : string -> option string
}.

(** Files by path: [Some img] for a file that holds the complete PNG
    encoding of [img], [None] for a file that holds no complete picture (it
    was just created or truncated, or a write to it was cut short and left
    part of an encoding behind). *)
Abbreviation Files := (gmap string (option Image)).

Section Renderer.
Context `{Backend}.

Definition vgimg_New (w h : float) : outcome Image :=
  if vgimg_admits w h
  then Returned {| ImageWidth := w; ImageHeight := h; drawn := [] |}
  else Panicked (LibraryPanic "vgimg.New").

Definition Align (plots : Panels) (t : Tiles) (img : Image)
    : outcome (list (list Rectangle)) :=
  match plot_Align plots t (ImageWidth img) (ImageHeight img) with
  | Some canvases => Returned canvases
  | None => Panicked (LibraryPanic "plot.Align")
  end.

(** [p.Draw(c)]. *)
Definition Draw (p : Plot) (c : Rectangle) (img : Image) : Image :=
  {| ImageWidth := ImageWidth img; ImageHeight := ImageHeight img;
     drawn := drawn img ++ [(c, p)] |}.

(** [for i := from; i < from + count; i++ { body }]. *)
Fixpoint for_loop {St} (from count : nat) (body : nat -> St -> outcome St)
    (st : St) : outcome St :=
  match count with
  | O => Returned st
  | S count' => st' ← body from st; for_loop (S from) count' body st'
  end.

(** [if plots[j][i] != nil { plots[j][i].Draw(canvases[j][i]) }]. *)
Definition draw_cell (plots : Panels) (canvases : list (list Rectangle))
    (j i : nat) (img : Image) : outcome Image :=
  row ← index plots j;
  p ← index row i;
  match p with
  | None => Returned img
  | Some pl =>
      crow ← index canvases j;
      c ← index crow i;
      mret (Draw pl c img)
  end.

Definition draw_all (plots : Panels) (canvases : list (list Rectangle))
    (rows cols : nat) (img : Image) : outcome Image :=
  for_loop 0 rows (fun j img =>
    for_loop 0 cols (fun i img => draw_cell plots canvases j i img) img) img.

(** [os.Create(filename)] truncates or creates the file. *)
Definition os_Create (filename : string) : Run Files unit := fun fs =>
  match os_Create_fault filename with
  | Some msg => (Failed (ErrExternal msg), fs)
  | None => (Returned tt, <[filename := None]> fs)
  end.

(** [png.WriteTo(w)] on the file just created. The encoder writes through
    a buffer: a write that fails may have put any part of the encoding in
    the file, which then holds no complete picture. *)
Definition WriteTo (filename : string) (img : Image) : Run Files unit := fun fs =>
  match WriteTo_fault filename with
  | Some msg => (Failed (ErrExternal msg), <[filename := None]> fs)
  | None => (Returned tt, <[filename := Some img]> fs)
  end.

(** [rows := len(plots); cols := len(plots[0])]. *)
Definition tiles_of (plots : Panels) : outcome Tiles :=
  let rows := length plots in
  row0 ← index plots 0;
  mret {| Rows := rows; Cols := length row0 |}.

Definition Save (plots : Panels) (width height : float) (filename : string)
    : Run Files unit :=
  t ← lift (tiles_of plots);
  img ← lift (vgimg_New width height);
  canvases ← lift (Align plots t img);
  img ← lift (draw_all plots canvases (Rows t) (Cols t) img);
  _ ← os_Create filename;
  _ ← WriteTo filename img;
  mret tt.

(** The grid [main] hands to [Save]:
    [plots[0] = {memPlot}; plots[1] = {ioPlot}; plots[2] = {cpuPlot}]. *)
Definition main_plots (memPlot ioPlot cpuPlot : Plot) : Panels :=
  [[Some memPlot]; [Some ioPlot]; [Some cpuPlot]].

End Renderer.

(** A plot library that accepts every series, and a canvas layer that
    requires positive sizes, lays a grid out in unit cells (column [i],
    row [j] at [(i, j)]) when every row has exactly [Cols] entries, as
    [plot.Align] requires, creates files anywhere but under [/proc] and
    fails to write those under [/mnt/full]. *)
Definition lenient : PlotLib :=
  {| plot_New_fault := None; NewLine_fault := fun _ => None |}.

Definition unit_cell (j i : nat) : Rectangle :=
  {| MinX := Go.float64 (Z.of_nat i); MinY := Go.float64 (Z.of_nat j);
     MaxX := Go.float64 (Z.of_nat i + 1); MaxY := Go.float64 (Z.of_nat j + 1) |}.

Definition unit_grid (plots : Panels) (t : Tiles) : option (list (list Rectangle)) :=
  if forallb (fun row => Nat.eqb (length row) (Cols t)) plots
  then Some (imap (fun j row => imap (fun i _ => unit_cell j i) row) plots)
  else None.

Definition simple_backend : Backend :=
  {| vgimg_admits w h := (0 <? w)%float && (0 <? h)%float;
     plot_Align plots t _ _ := unit_grid plots t;
     os_Create_fault path :=
       if String.prefix "/proc" path then Some "permission denied" else None;
     WriteTo_fault path :=
       if String.prefix "/mnt/full" path then Some "no space left on device" else None |}.

(** ** Vocabulary of the statements *)

(** The point each series holds for a sample. *)
Definition seconds_of (s : sample) : float := Go.Seconds (interval s).

Definition rss_point (s : sample) : XY :=
  {| plotter.X := seconds_of s; plotter.Y := (Go.float64 (RSS (mem s)) / 1024)%float |}.
Definition vms_point (s : sample) : XY :=
  {| plotter.X := seconds_of s; plotter.Y := (Go.float64 (VMS (mem s)) / 1024)%float |}.
Definition read_point (s : sample) : XY :=
  {| plotter.X := seconds_of s; plotter.Y := Go.float64 (ReadCount (io s)) |}.
Definition write_point (s : sample) : XY :=
  {| plotter.X := seconds_of s; plotter.Y := Go.float64 (WriteCount (io s)) |}.
Definition cpu_point (s : sample) : XY :=
  {| plotter.X := seconds_of s; plotter.Y := (cpu s * 100)%float |}.

(** Loop invariant of the builders: [pts] has one point per sample, and
    the first [k] of them are final. *)
Definition filled (f : sample -> XY) (samples : list sample) (k : nat) (pts : XYs) : Prop :=
  length pts = length samples /\
  forall j s, (j < k)%nat -> samples !! j = Some s -> pts !! j = Some (f s).


(** The series registered in the legend under [name]. *)
Definition legend_series (name : string) (pl : Plot) : option Line :=
  (fun found => found.2.2) <$> list_find (fun entry => entry.1 = name) (Legend pl).

(** Runs used as examples. *)
Definition one_sample : sample :=
  {| mem := {| RSS := 2048; VMS := 4096 |};
     io := {| ReadCount := 1; WriteCount := 2 |};
     cpu := 0.5%float;
     interval := 1500000000 |}.

Definition short_run : ProcessInfo :=
  {| Pid := 42; StartTime := 0; SamplingInterval := 50000000; Samples := [one_sample] |}.

Definition idle_run : ProcessInfo :=
  {| Pid := 42; StartTime := 0; SamplingInterval := 50000000; Samples := [] |}.

(** The three builders, by name. *)
Inductive builder : Type := Memory | IO | CPU.

Definition build `{PlotLib} (b : builder) (pi : ProcessInfo) : outcome Plot :=
  match b with
  | Memory => MemPlot pi
  | IO => IoPlot pi
  | CPU => CpuPlot pi
  end.


(** The I/O panel of [short_run]. *)
Definition short_io_panel : Plot :=
  Eval vm_compute in
    match @IoPlot lenient short_run with
    | Returned pl => pl
    | _ => {| Title := ""; XLabel := ""; YLabel := ""; plotters := []; Legend := [] |}
    end.

(** A list of calls in which a failed metric query, if there is one, is
    the last call and decides the outcome. *)
Fixpoint aborts_at_failure {A} (new : list call) (out : outcome A) : Prop :=
  match new with
  | [] => True
  | c :: rest =>
      match failed_query c with
      | Some msg => rest = [] /\ out = Failed (ErrExternal msg)
      | None => aborts_at_failure rest out
      end
  end.

(** The samples a list of calls accounts for: one for each reading of the
    elapsed time that was followed by three answered queries. *)
Fixpoint samples_of_calls (cs : list call) : list sample :=
  match cs with
  | [] => []
  | CallSince t :: rest =>
      match rest with
      | CallMemoryInfo (Ans m) :: CallIOCounters (Ans i) :: CallCPUPercent (Ans c) :: _ =>
          Build_sample m i c t :: samples_of_calls rest
      | _ => samples_of_calls rest
      end
  | _ :: rest => samples_of_calls rest
  end.

(** Saturation of an integer to the [int64] range. *)
Definition saturate (z : Z) : Z := Z.max Go.minInt64 (Z.min Go.maxInt64 z).

(** Each value is at least the one before it. *)
Definition nondecreasing (l : list Z) : Prop :=
  forall i a b, l !! i = Some a -> l !! S i = Some b -> a <= b.

(** Elapsed times between 0 and [bound], in non-decreasing order. *)
Definition steady_upto (bound : Z) (l : list Z) : Prop :=
  Forall (fun e => 0 <= e <= bound) l /\ nondecreasing l.

(** Worlds of the fake host: a process that is being sampled, one that
    has exited before the call, one the system does not know, and one
    whose I/O counters become unreadable during the run. *)
Definition lively : fake :=
  {| now := 100; known := true; exit_at := 1000; io_denied_at := 1000 |}.
Definition lapsed : fake :=
  {| now := 100; known := true; exit_at := 50; io_denied_at := 1000 |}.
Definition unknown : fake :=
  {| now := 100; known := false; exit_at := 50; io_denied_at := 1000 |}.
Definition guarded : fake :=
  {| now := 100; known := true; exit_at := 1000; io_denied_at := 115 |}.

(** The elapsed times of a run, in sample order. *)
Definition elapsed_of (pi : ProcessInfo) : list Z := interval <$> Samples pi.

(** The other two panels of [short_run]. *)
Definition short_mem_panel : Plot :=
  Eval vm_compute in
    match @MemPlot lenient short_run with
    | Returned pl => pl
    | _ => {| Title := ""; XLabel := ""; YLabel := ""; plotters := []; Legend := [] |}
    end.

Definition short_cpu_panel : Plot :=
  Eval vm_compute in
    match @CpuPlot lenient short_run with
    | Returned pl => pl
    | _ => {| Title := ""; XLabel := ""; YLabel := ""; plotters := []; Legend := [] |}
    end.

(** A grid whose rows all have at least [cols] entries, with a canvas for
    each of the first [cols] entries of every row. *)
Definition grid_covered (cols : nat) (plots : Panels)
    (canvases : list (list Rectangle)) : Prop :=
  forall j row, plots !! j = Some row ->
    (cols <= length row)%nat /\
    exists crow, canvases !! j = Some crow /\ (cols <= length crow)%nat.

(** ** The command line *)

(** The package-level variables [flag.Parse] fills in. *)
Module flag.
Record Values : Type := {
  help : bool;
  version : bool;
  pid : Z;
  duration : Z;
  interval : Z;
  width : string;
  height : string;
  output : string
}.
End flag.

(** The defaults registered by [init]. *)
Definition default_flags : flag.Values :=
  {| flag.help := false; flag.version := false; flag.pid := -1;
     flag.duration := 10 * Go.Second; flag.interval := 50 * 1000000;
     flag.width := "10cm"; flag.height := "8cm"; flag.output := "pinfo.png" |}.

(** [int32(pid)] for an [int64]: the low 32 bits, as a signed number. *)
Definition int32_of (z : Z) : Z := (z + 2 ^ 31) mod 2 ^ 32 - 2 ^ 31.

(** [err.Error()]. *)
Definition Error (e : error) : string :=
  match e with
  | ErrNeedTwoSamples =>
      "need at least 2 samples, your sampling interval is too long or sampling duration is too short"
  | ErrExternal msg => msg
  end.

(** What the program prints: a line on standard output, or the usage text
    with the flag defaults on standard error. *)
Inductive printed : Type :=
  | Stdout (text : string)
  | UsageText.

(** [vg.ParseLength] of gonum/plot. *)
Class VgLib : Type := {
  vg_ParseLength : string -> reply float
}.

(** The world [main] runs in: the sampler's machine, the files and the
    console. *)
Record world (W : Type) : Type := {
  sampler : machine W;
  files : gmap string (option Image);
  console : list printed
}.
Arguments sampler {W} w.
Arguments files {W} w.
Arguments console {W} w.

(** How a run of the program ends: [main] returns, [os.Exit(code)] is
    called, a panic goes unrecovered; [Cut] marks a run cut by the bound
    on the sampler's iterations. *)
Inductive ending : Type :=
  | Ended
  | Exited (code : Z)
  | Crashed (p : panic)
  | Cut.

Section Main.
Context {W : Type} `{Host W} `{PlotLib} `{Backend} `{VgLib}.

Definition print (item : printed) : Run (world W) unit := fun w =>
  (Returned tt,
   {| sampler := sampler w; files := files w; console := console w ++ [item] |}).

(** [fmt.Println(text)]. *)
Definition Println (text : string) : Run (world W) unit := print (Stdout text).

(** [usage()]. *)
Definition usage : Run (world W) unit := print UsageText.

Definition on_sampler {A} (c : Run (machine W) A) : Run (world W) A := fun w =>
  let '(o, m) := c (sampler w) in
  (o, {| sampler := m; files := files w; console := console w |}).

Definition on_files {A} (c : Run Files A) : Run (world W) A := fun w =>
  let '(o, fs) := c (files w) in
  (o, {| sampler := sampler w; files := fs; console := console w |}).

(** [v, err := call; check(err)]: an error is printed and the program
    exits with code 1, which [Failed] stands for from here on. *)
Definition check {A} (c : Run (world W) A) : Run (world W) A := fun w =>
  match c w with
  | (Failed e, w') =>
      (Failed e,
       {| sampler := sampler w'; files := files w';
          console := console w' ++ [Stdout (Error e)] |})
  | r => r
  end.

(** The body of [main], after [flag.Parse()]. *)
Definition main_body (fuel : nat) (f : flag.Values) : Run (world W) unit :=
  if flag.help f then usage
  else if flag.version f then Println "version: 0.0.1"
  else if flag.pid f <=? 0 then Println "invalid pid"
  else
    imgWidth ← check (lift (of_reply (vg_ParseLength (flag.width f))));
    imgHeight ← check (lift (of_reply (vg_ParseLength (flag.height f))));
    _ ← Println ("Collecting info from pid: " +:+ pretty (flag.pid f));
    _ ← (if flag.duration f =? 0
         then Println "Your sampling duration is 0, which means sample pid until it exits"
         else mret tt);
    pi ← check (on_sampler (New fuel (int32_of (flag.pid f)) (flag.duration f)
                              (flag.interval f)));
    memPlot ← check (lift (MemPlot pi));
    ioPlot ← check (lift (IoPlot pi));
    cpuPlot ← check (lift (CpuPlot pi));
    check (on_files (Save (main_plots memPlot ioPlot cpuPlot) imgWidth imgHeight
                       (flag.output f))).

Definition main (fuel : nat) (f : flag.Values) (w : world W) : ending * world W :=
  match main_body fuel f w with
  | (Returned _, w') => (Ended, w')
  | (Failed _, w') => (Exited 1, w')
  | (Panicked p, w') => (Crashed p, w')
  | (Unfinished, w') => (Cut, w')
  end.

End Main.

(** A length parser that knows the two default sizes (rounded, in points). *)
Definition two_sizes : VgLib :=
  {| vg_ParseLength text :=
       if String.eqb text "10cm" then Ans 283.5%float
       else if String.eqb text "8cm" then Ans 226.75%float
       else Fault "vg: unknown unit" |}.

Definition start_world (w : fake) (fs : gmap string (option Image)) : world fake :=
  {| sampler := boot w; files := fs; console := [] |}.

(** ** More vocabulary *)

(** The durations slept for, in call order. *)
Definition sleeps (cs : list call) : list Z :=
  omap (fun c => match c with CallSleep d => Some d | _ => None end) cs.

(** A call that polls the process or waits: a metric query or a sleep. *)
Definition is_poll (c : call) : bool :=
  match c with
  | CallMemoryInfo _ | CallIOCounters _ | CallCPUPercent _ | CallSleep _ => true
  | _ => false
  end.

(** A list of calls in which a liveness query answering "not running" is
    followed by one reading of the clock and nothing else, the call
    returning a run. *)
Fixpoint quits_when_not_running {A} (new : list call) (out : outcome A) : Prop :=
  match new with
  | [] => True
  | c :: rest =>
      match c with
      | CallIsRunning (Ans false) =>
          (exists d, rest = [CallSince d]) /\ (exists a, out = Returned a)
      | _ => quits_when_not_running rest out
      end
  end.

Definition red : RGBA := {| color.R := 255; color.G := 0; color.B := 0; color.A := 255 |}.
Definition green : RGBA := {| color.R := 0; color.G := 255; color.B := 0; color.A := 255 |}.

(** A series as the builders finish it: one point wide, of colour [c]. *)
Definition styled (c : RGBA) (xys : XYs) : Line :=
  {| LineXYs := xys; LineWidth := vg_Points 1; LineColor := c |}.

(** The memory panel and the CPU panel of a run. *)
Definition mem_panel (pi : ProcessInfo) : Plot :=
  let lRss := styled red (rss_point <$> Samples pi) in
  let lVms := styled green (vms_point <$> Samples pi) in
  {| Title := "Memory Plot of PID " +:+ pretty (Pid pi);
     XLabel := "t (s)"; YLabel := "KB";
     plotters := [Grid; LinePlotter lRss; LinePlotter lVms];
     Legend := [("RSS", lRss); ("VMS", lVms)] |}.

Definition cpu_panel (pi : ProcessInfo) : Plot :=
  let l := styled black (cpu_point <$> Samples pi) in
  {| Title := "CPU Plot of PID " +:+ pretty (Pid pi);
     XLabel := "t (s)"; YLabel := "%";
     plotters := [Grid; LinePlotter l];
     Legend := [("CPU", l)] |}.

(** [img] with [cells] drawn on top. *)
Definition paint (cells : list (Rectangle * Plot)) (img : Image) : Image :=
  {| ImageWidth := ImageWidth img; ImageHeight := ImageHeight img;
     drawn := drawn img ++ cells |}.

(** What is drawn for the entry of row [j], column [i]: the panel on its
    canvas, or nothing for a nil entry. *)
Definition cell_draw (plots : Panels) (canvases : list (list Rectangle))
    (j i : nat) : list (Rectangle * Plot) :=
  match plots !! j ≫= (fun row => row !! i), canvases !! j ≫= (fun crow => crow !! i) with
  | Some (Some p), Some c => [(c, p)]
  | _, _ => []
  end.

(** The draws of a grid of [rows] rows and [cols] columns, row by row. *)
Definition row_major (plots : Panels) (canvases : list (list Rectangle))
    (rows cols : nat) : list (Rectangle * Plot) :=
  j ← seq 0 rows; i ← seq 0 cols; cell_draw plots canvases j i.

(** The I/O panel as [IoPlot] builds it: the second series is made from
    the points of the first. *)
Definition io_panel (pi : ProcessInfo) : Plot :=
  let lR := styled red (read_point <$> Samples pi) in
  let lW := styled green (read_point <$> Samples pi) in
  {| Title := "IO Plot of PID " +:+ pretty (Pid pi);
     XLabel := "t (s)"; YLabel := "op";
     plotters := [Grid; LinePlotter lR; LinePlotter lW];
     Legend := [("IO Read", lR); ("IO Write", lW)] |}.

(** The panel a builder makes of a run, when the plot library lets it. *)
Definition panel_of (b : builder) (pi : ProcessInfo) : Plot :=
  match b with
  | Memory => mem_panel pi
  | IO => io_panel pi
  | CPU => cpu_panel pi
  end.

(** The series a builder hands to [plotter.NewLine], in order. *)
Definition lines_asked (b : builder) (pi : ProcessInfo) : list XYs :=
  match b with
  | Memory => [rss_point <$> Samples pi; vms_point <$> Samples pi]
  | IO => [read_point <$> Samples pi; read_point <$> Samples pi]
  | CPU => [cpu_point <$> Samples pi]
  end.

(** The flags [f] with [-p p]. *)
Definition with_pid (p : Z) (f : flag.Values) : flag.Values :=
  {| flag.help := flag.help f; flag.version := flag.version f; flag.pid := p;
     flag.duration := flag.duration f; flag.interval := flag.interval f;
     flag.width := flag.width f; flag.height := flag.height f;
     flag.output := flag.output f |}.

(** A process that exits two ticks after the call. *)
Definition fading : fake :=
  {| now := 100; known := true; exit_at := 102; io_denied_at := 1000 |}.

(** [-p 42 -d 3ns -i 1ns], the other flags at their defaults. *)
Definition short_flags : flag.Values :=
  {| flag.help := false; flag.version := false; flag.pid := 42;
     flag.duration := 3; flag.interval := 1;
     flag.width := "10cm"; flag.height := "8cm"; flag.output := "pinfo.png" |}.

(** A grid of two rows and two columns with two nil entries, and the
    canvases of its cells. *)
Definition patchy_grid : list (list (option Plot)) :=
  [[Some short_mem_panel; None]; [None; Some short_cpu_panel]].

Definition patchy_canvases : list (list Rectangle) :=
  [[unit_cell 0 0; unit_cell 0 1]; [unit_cell 1 0; unit_cell 1 1]].

(** [short_flags] with a width that is no length. *)
Definition bad_width_flags : flag.Values :=
  {| flag.help := false; flag.version := false; flag.pid := 42;
     flag.duration := 3; flag.interval := 1;
     flag.width := "abc"; flag.height := "8cm"; flag.output := "pinfo.png" |}.


(** What [main] prints between parsing the sizes and calling [New]. *)
Definition announced (f : flag.Values) : list printed :=
  Stdout ("Collecting info from pid: " +:+ pretty (flag.pid f)) ::
  (if flag.duration f =? 0
   then [Stdout "Your sampling duration is 0, which means sample pid until it exits"]
   else []).

Section MainStages.
Context {W : Type} `{Host W} `{PlotLib} `{Backend} `{VgLib}.

(** [stopped_by fuel f w e before]: in the run of [main] on the flags [f]
    from the world [w], the calls whose error is checked succeed up to
    one that returns the error [e]; [before] is what [main] itself has
    printed by then. *)
Inductive stopped_by (fuel : nat) (f : flag.Values) (w : world W)
    : error -> list printed -> Prop :=
  | width_refused msg :
      vg_ParseLength (flag.width f) = Fault msg ->
      stopped_by fuel f w (ErrExternal msg) []
  | height_refused imgWidth msg :
      vg_ParseLength (flag.width f) = Ans imgWidth ->
      vg_ParseLength (flag.height f) = Fault msg ->
      stopped_by fuel f w (ErrExternal msg) []
  | New_failed imgWidth imgHeight e m :
      vg_ParseLength (flag.width f) = Ans imgWidth ->
      vg_ParseLength (flag.height f) = Ans imgHeight ->
      New fuel (int32_of (flag.pid f)) (flag.duration f) (flag.interval f) (sampler w)
        = (Failed e, m) ->
      stopped_by fuel f w e (announced f)
  | MemPlot_failed imgWidth imgHeight pi m e :
      vg_ParseLength (flag.width f) = Ans imgWidth ->
      vg_ParseLength (flag.height f) = Ans imgHeight ->
      New fuel (int32_of (flag.pid f)) (flag.duration f) (flag.interval f) (sampler w)
        = (Returned pi, m) ->
      MemPlot pi = Failed e ->
      stopped_by fuel f w e (announced f)
  | IoPlot_failed imgWidth imgHeight pi m memPlot e :
      vg_ParseLength (flag.width f) = Ans imgWidth ->
      vg_ParseLength (flag.height f) = Ans imgHeight ->
      New fuel (int32_of (flag.pid f)) (flag.duration f) (flag.interval f) (sampler w)
        = (Returned pi, m) ->
      MemPlot pi = Returned memPlot ->
      IoPlot pi = Failed e ->
      stopped_by fuel f w e (announced f)
  | CpuPlot_failed imgWidth imgHeight pi m memPlot ioPlot e :
      vg_ParseLength (flag.width f) = Ans imgWidth ->
      vg_ParseLength (flag.height f) = Ans imgHeight ->
      New fuel (int32_of (flag.pid f)) (flag.duration f) (flag.interval f) (sampler w)
        = (Returned pi, m) ->
      MemPlot pi = Returned memPlot ->
      IoPlot pi = Returned ioPlot ->
      CpuPlot pi = Failed e ->
      stopped_by fuel f w e (announced f)
  | Save_failed imgWidth imgHeight pi m memPlot ioPlot cpuPlot e fs :
      vg_ParseLength (flag.width f) = Ans imgWidth ->
      vg_ParseLength (flag.height f) = Ans imgHeight ->
      New fuel (int32_of (flag.pid f)) (flag.duration f) (flag.interval f) (sampler w)
        = (Returned pi, m) ->
      MemPlot pi = Returned memPlot ->
      IoPlot pi = Returned ioPlot ->
      CpuPlot pi = Returned cpuPlot ->
      Save (main_plots memPlot ioPlot cpuPlot) imgWidth imgHeight (flag.output f) (files w)
        = (Failed e, fs) ->
      stopped_by fuel f w e (announced f).

End MainStages.

(** * Theorems *)

(** ** Plot builders *)

Section BuilderFacts.
Context `{PlotLib}.

(** A loop invariant established before a [range] loop and preserved by
    its body holds when the loop is over, and the loop does not panic. *)
Lemma range_invariant {T St} (body : nat -> T -> St -> outcome St)
    (Inv : nat -> St -> Prop) (all : list T) :
  (forall i s st, all !! i = Some s -> Inv i st ->
     exists st', body i s st = Returned st' /\ Inv (S i) st') ->
  forall l pre st, all = pre ++ l -> Inv (length pre) st ->
    exists st', range body (length pre) l st = Returned st' /\ Inv (length all) st'.
Proof.
  intros Hbody l. induction l as [|s l IH]; intros pre st Hall Hinv.
  - exists st. rewrite app_nil_r in Hall. subst all. done.
  - destruct (Hbody (length pre) s st) as (st' & Hst' & Hinv'); [|done|].
    { subst all. apply list_lookup_middle. done. }
    destruct (IH (pre ++ [s]) st') as (st'' & Hrange & Hfinal).
    + rewrite <- app_assoc. done.
    + rewrite length_app, Nat.add_1_r. done.
    + exists st''. split; [|done]. simpl. rewrite Hst'. simpl.
      rewrite length_app, Nat.add_1_r in Hrange. done.
Qed.

Lemma filled_start f samples : filled f samples 0 (make_XYs (length samples)).
Proof.
  split; [apply length_replicate | intros j s Hj; lia].
Qed.

Lemma filled_done f samples pts :
  filled f samples (length samples) pts -> pts = f <$> samples.
Proof.
  intros [Hlen Hpts]. apply list_eq. intros j.
  rewrite list_lookup_fmap.
  destruct (samples !! j) as [s|] eqn:Hs; simpl.
  - apply Hpts; [|done]. apply lookup_lt_Some in Hs. done.
  - apply lookup_ge_None. rewrite Hlen. apply lookup_ge_None. done.
Qed.

(** Writing X then Y at index [k] of a series filled up to [k] fills it
    up to [k + 1]. *)
Lemma set_X_Y_filled f samples k s pts :
  samples !! k = Some s -> filled f samples k pts ->
  exists pts', set_X k (plotter.X (f s)) pts = Returned pts' /\
    set_Y k (plotter.Y (f s)) pts' = Returned (<[k := f s]> pts) /\
    length pts' = length samples /\
    filled f samples (S k) (<[k := f s]> pts).
Proof.
  intros Hs [Hlen Hpts].
  assert (k < length pts)%nat as Hk by (rewrite Hlen; eapply lookup_lt_Some; done).
  destruct (lookup_lt_is_Some_2 pts k Hk) as [p Hp].
  exists (<[k := {| plotter.X := plotter.X (f s); plotter.Y := plotter.Y p |}]> pts).
  unfold set_X, set_Y. rewrite Hp, list_lookup_insert_eq by done. simpl.
  rewrite list_insert_insert_eq.
  replace {| plotter.X := plotter.X (f s); plotter.Y := plotter.Y (f s) |}
    with (f s) by (destruct (f s); done).
  repeat split.
  - rewrite length_insert. done.
  - rewrite length_insert. done.
  - intros j s' Hj Hs'. destruct (decide (j = k)) as [->|Hne].
    + rewrite list_lookup_insert_eq by done. congruence.
    + rewrite list_lookup_insert_ne by done. apply Hpts; [lia|done].
Qed.

End BuilderFacts.

Section BuilderLoops.
Context `{PlotLib}.

Ltac fill_step Hs Hfill a' :=
  let H1 := fresh "Hx" in
  let H2 := fresh "Hy" in
  let H3 := fresh "Hlen" in
  let H4 := fresh "Hfilled" in
  destruct (set_X_Y_filled _ _ _ _ _ Hs Hfill) as (a' & H1 & H2 & H3 & H4);
  cbn [plotter.X plotter.Y rss_point vms_point read_point write_point cpu_point]
    in H1, H2;
  unfold seconds_of in H1.

(** The loop of [MemPlot] fills both series and does not panic. *)
Lemma MemPlot_range pi :
  range (MemPlot_body pi) 0 (Samples pi)
    (make_XYs (length (Samples pi)), make_XYs (length (Samples pi)))
  = Returned (rss_point <$> Samples pi, vms_point <$> Samples pi).
Proof.
  destruct (range_invariant (MemPlot_body pi)
    (fun k st => filled rss_point (Samples pi) k st.1 /\
                 filled vms_point (Samples pi) k st.2)
    (Samples pi)) with (l := Samples pi) (pre := @nil sample)
    (st := (make_XYs (length (Samples pi)), make_XYs (length (Samples pi))))
    as ([a b] & Hrange & Ha & Hb).
  - intros i s [a b] Hs [Ha Hb]; simpl in Ha, Hb.
    fill_step Hs Ha a'. fill_step Hs Hb b'.
    eexists. unfold MemPlot_body, index.
    rewrite Hx; simpl. rewrite Hx0; simpl. rewrite Hs; simpl.
    rewrite Hy; simpl. rewrite Hy0; simpl. done.
  - done.
  - split; apply filled_start.
  - simpl in *. rewrite Hrange.
    rewrite (filled_done _ _ _ Ha), (filled_done _ _ _ Hb). done.
Qed.

Lemma IoPlot_range pi :
  range (IoPlot_body pi) 0 (Samples pi)
    (make_XYs (length (Samples pi)), make_XYs (length (Samples pi)))
  = Returned (read_point <$> Samples pi, write_point <$> Samples pi).
Proof.
  destruct (range_invariant (IoPlot_body pi)
    (fun k st => filled read_point (Samples pi) k st.1 /\
                 filled write_point (Samples pi) k st.2)
    (Samples pi)) with (l := Samples pi) (pre := @nil sample)
    (st := (make_XYs (length (Samples pi)), make_XYs (length (Samples pi))))
    as ([a b] & Hrange & Ha & Hb).
  - intros i s [a b] Hs [Ha Hb]; simpl in Ha, Hb.
    fill_step Hs Ha a'. fill_step Hs Hb b'.
    eexists. unfold IoPlot_body, index.
    rewrite Hx; simpl. rewrite Hx0; simpl. rewrite Hs; simpl.
    rewrite Hy; simpl. rewrite Hy0; simpl. done.
  - done.
  - split; apply filled_start.
  - simpl in *. rewrite Hrange.
    rewrite (filled_done _ _ _ Ha), (filled_done _ _ _ Hb). done.
Qed.

Lemma CpuPlot_range pi :
  range (CpuPlot_body pi) 0 (Samples pi) (make_XYs (length (Samples pi)))
  = Returned (cpu_point <$> Samples pi).
Proof.
  destruct (range_invariant (CpuPlot_body pi)
    (fun k st => filled cpu_point (Samples pi) k st)
    (Samples pi)) with (l := Samples pi) (pre := @nil sample)
    (st := make_XYs (length (Samples pi)))
    as (a & Hrange & Ha).
  - intros i s a Hs Ha.
    fill_step Hs Ha a'.
    eexists. unfold CpuPlot_body, index.
    rewrite Hx; simpl. rewrite Hs; simpl. rewrite Hy; simpl. done.
  - done.
  - apply filled_start.
  - simpl in *. rewrite Hrange, (filled_done _ _ _ Ha). done.
Qed.

End BuilderLoops.

Section BuilderTheorems.
Context `{PlotLib}.







(** C5, as the code has it: no builder checks for an empty run.  On a
    run without samples each builder hands empty series to the plot
    library; it fails exactly when [plot.New] or [plotter.NewLine]
    fails, with the library's error, and otherwise returns a panel all of
    whose series are empty. *)
Theorem builders_on_empty_run pi :
  Samples pi = [] ->
  match plot_New_fault, NewLine_fault [] with
  | Some msg, _ | None, Some msg =>
      MemPlot pi = Failed (ErrExternal msg) /\
      IoPlot pi = Failed (ErrExternal msg) /\
      CpuPlot pi = Failed (ErrExternal msg)
  | None, None =>
      exists plm pli plc,
        MemPlot pi = Returned plm /\ IoPlot pi = Returned pli /\
        CpuPlot pi = Returned plc /\
        Forall (fun l => LineXYs l = []) (series plm ++ series pli ++ series plc)
  end.
Proof.
  intros Hidle. unfold MemPlot, IoPlot, CpuPlot, plot_New.
  rewrite MemPlot_range, IoPlot_range, CpuPlot_range, Hidle.
  destruct plot_New_fault as [msg|]; simpl; [done|].
  unfold NewLine. destruct (NewLine_fault []) as [msg|]; simpl; [done|].
  eexists _, _, _. repeat split. simpl. repeat constructor.
Qed.

End BuilderTheorems.

(** ** The sampler *)

Section SamplerTheorems.
Context {W : Type} `{Host W}.

Lemma quot_zero_duration interval :
  interval <> 0 -> Go.quot 0 interval = Returned 0.
Proof.
  intros Hi. unfold Go.quot. destruct (Z.eqb_spec interval 0); [done|].
  rewrite Z.quot_0_l by done. done.
Qed.

Lemma New_unfold_rejected fuel pid duration interval (m : machine W) q :
  Go.quot duration interval = Returned q -> q < 2 ->
  New fuel pid duration interval m = (Failed ErrNeedTwoSamples, m).
Proof.
  intros Hq Hlt. unfold New, mbind, Run_mbind, lift. rewrite Hq.
  destruct (Z.ltb_spec q 2); [done|lia].
Qed.

(** C3: when [duration / interval] yields fewer than 2 the call fails
    with the need-two-samples error and leaves the world as it was: no
    call to the host is made.  Conversely a call that ends in any other
    way than this rejection (or the panic of a division by zero) had
    [duration / interval >= 2]. *)
Theorem New_needs_two_samples fuel pid duration interval (m : machine W) :
  (forall q, Go.quot duration interval = Returned q -> q < 2 ->
     New fuel pid duration interval m = (Failed ErrNeedTwoSamples, m)) /\
  (forall out m', New fuel pid duration interval m = (out, m') ->
     out <> Failed ErrNeedTwoSamples -> out <> Panicked DivideByZero ->
     exists q, Go.quot duration interval = Returned q /\ 2 <= q).
Proof.
  split.
  - intros q. apply New_unfold_rejected.
  - intros out m'. unfold New, mbind, Run_mbind, lift, Go.quot.
    destruct (interval =? 0).
    + intros [= <- <-] _ Hp. done.
    + destruct (Z.ltb_spec (Go.wrap64 (duration ÷ interval)) 2).
      * intros [= <- <-] He. done.
      * intros _ _ _. eexists. split; [done|lia].
Qed.

(** C1: a call with [duration = 0] is turned down by the two-samples
    check, before the process is even looked up, although the loop below
    the check, its comment and the [-d] flag's help text treat 0 as
    "sample until the process exits". *)
Theorem New_zero_duration_rejected fuel pid interval (m : machine W) :
  interval <> 0 ->
  New fuel pid 0 interval m = (Failed ErrNeedTwoSamples, m).
Proof.
  intros Hi. apply New_unfold_rejected with (q := 0); [|lia].
  apply quot_zero_duration. done.
Qed.

(** The bound on the iterations does not change a run that finishes
    within it. *)
Lemma sampling_fuel_mono fuel fuel' proc start duration interval pi running
    (m : machine W) out m' :
  (fuel <= fuel')%nat -> out <> Unfinished ->
  sampling fuel proc start duration interval pi running m = (out, m') ->
  sampling fuel' proc start duration interval pi running m = (out, m').
Proof.
  revert fuel' pi running m.
  induction fuel as [|fuel IH]; intros fuel' pi running m Hle Hout;
    destruct fuel' as [|fuel']; try lia; simpl;
    unfold mbind, Run_mbind, time_Since, lift;
    destruct (runtimeNano (host m)) as [t w]; simpl;
    destruct (keep_sampling duration (Go.Sub t start) running); simpl; try done.
  - intros [= <- _]. done.
  - unfold MemoryInfo, IOCounters, CPUPercent, IsRunning, ask, Sleep; simpl.
    destruct (proc_MemoryInfo proc w) as [[?|?] ?]; simpl; [|done].
    destruct (proc_IOCounters proc _) as [[?|?] ?]; simpl; [|done].
    destruct (proc_CPUPercent proc _) as [[?|?] ?]; simpl; [|done].
    destruct (proc_IsRunning proc _) as [[?|?] ?]; simpl; [|done].
    apply IH; [lia|done].
Qed.

Lemma New_fuel_mono fuel fuel' pid duration interval (m : machine W) out m' :
  (fuel <= fuel')%nat -> out <> Unfinished ->
  New fuel pid duration interval m = (out, m') ->
  New fuel' pid duration interval m = (out, m').
Proof.
  intros Hle Hout. unfold New, mbind, Run_mbind, lift.
  destruct (Go.quot duration interval) as [q| | |]; try done.
  destruct (q <? 2); [done|].
  unfold NewProcess, IsRunning, ask, time_Now, make_samples.
  destruct (process_NewProcess pid (host m)) as [[?|?] ?]; simpl; [|done].
  destruct (runtimeNano _) as [t w1]; simpl.
  destruct (makeslice_admits q); simpl; [|done].
  destruct (proc_IsRunning pid w1) as [[?|?] ?]; simpl; [|done].
  apply sampling_fuel_mono; done.
Qed.

(** With [duration = 0] the loop condition holds whatever [running] is:
    the loop itself never returns a run; it goes on until a query fails. *)
Lemma sampling_zero_duration_never_returns fuel proc start interval pi running
    (m : machine W) pi' :
  (sampling fuel proc start 0 interval pi running m).1 <> Returned pi'.
Proof.
  revert pi running m.
  induction fuel as [|fuel IH]; intros pi running m; simpl;
    unfold mbind, Run_mbind, time_Since;
    destruct (runtimeNano (host m)) as [t w]; simpl; [done|].
  unfold MemoryInfo, IOCounters, CPUPercent, IsRunning, ask, Sleep; simpl.
  destruct (proc_MemoryInfo proc w) as [[?|?] ?]; simpl; [|done].
  destruct (proc_IOCounters proc _) as [[?|?] ?]; simpl; [|done].
  destruct (proc_CPUPercent proc _) as [[?|?] ?]; simpl; [|done].
  destruct (proc_IsRunning proc _) as [[?|?] ?]; simpl; [|done].
  apply IH.
Qed.

End SamplerTheorems.

Section SamplerRuns.
Context {W : Type} `{Host W}.

Lemma quot_accepted_nonzero duration interval q :
  Go.quot duration interval = Returned q -> 2 <= q -> duration <> 0.
Proof.
  unfold Go.quot. destruct (Z.eqb_spec interval 0); [done|].
  intros [= <-] Hq ->. rewrite Z.quot_0_l in Hq by done. vm_compute in Hq. done.
Qed.

Lemma New_unfold_accepted fuel pid duration interval (m : machine W) q :
  Go.quot duration interval = Returned q -> 2 <= q ->
  New fuel pid duration interval m =
    (_ ← NewProcess pid;
     start ← time_Now;
     samples ← lift (make_samples q);
     running ← IsRunning pid;
     sampling fuel pid start duration interval
       {| Pid := pid; StartTime := start; SamplingInterval := interval;
          Samples := samples |} running) m.
Proof.
  intros Hq Hle. unfold New. unfold mbind at 1, Run_mbind at 1, lift at 1.
  rewrite Hq. destruct (Z.ltb_spec q 2); [lia|done].
Qed.

(** C4, as the code has it: for an accepted configuration, a target
    that cannot be resolved makes the call return the error of
    [process.NewProcess], and a failing liveness query makes it return
    that query's error, in both cases without a run; but a target that
    is resolved and reports itself not running at call time makes the
    call succeed, with a run of zero samples and no metric queried. *)
Theorem New_unresolved_or_not_running fuel pid duration interval q (m : machine W) :
  Go.quot duration interval = Returned q -> 2 <= q ->
  (forall msg w1,
     process_NewProcess pid (host m) = (Fault msg, w1) ->
     New fuel pid duration interval m =
       (Failed (ErrExternal msg),
        {| host := w1; calls := calls m ++ [CallNewProcess pid (Fault msg)] |})) /\
  (forall w1 t w2 msg w3,
     process_NewProcess pid (host m) = (Ans tt, w1) ->
     runtimeNano w1 = (t, w2) ->
     makeslice_admits q = true ->
     proc_IsRunning pid w2 = (Fault msg, w3) ->
     New fuel pid duration interval m =
       (Failed (ErrExternal msg),
        {| host := w3;
           calls := calls m ++ [CallNewProcess pid (Ans tt); CallNow t;
                                CallIsRunning (Fault msg)] |})) /\
  (forall w1 t w2 w3 t' w4,
     process_NewProcess pid (host m) = (Ans tt, w1) ->
     runtimeNano w1 = (t, w2) ->
     makeslice_admits q = true ->
     proc_IsRunning pid w2 = (Ans false, w3) ->
     runtimeNano w3 = (t', w4) ->
     New fuel pid duration interval m =
       (Returned {| Pid := pid; StartTime := t; SamplingInterval := interval;
                    Samples := [] |},
        {| host := w4;
           calls := calls m ++ [CallNewProcess pid (Ans tt); CallNow t;
                                CallIsRunning (Ans false);
                                CallSince (Go.Sub t' t)] |})).
Proof.
  intros Hq Hle. rewrite (New_unfold_accepted _ _ _ _ _ _ Hq Hle).
  pose proof (quot_accepted_nonzero _ _ _ Hq Hle) as Hd.
  unfold mbind, Run_mbind, NewProcess, IsRunning, ask, time_Now, lift, make_samples.
  split; [|split].
  - intros msg w1 ->. done.
  - intros w1 t w2 msg w3 -> ; simpl. intros -> -> ; simpl. intros ->; simpl.
    rewrite <- !app_assoc. done.
  - intros w1 t w2 w3 t' w4 -> ; simpl. intros -> -> ; simpl. intros ->; simpl.
    intros Ht'. destruct fuel; simpl;
      unfold mbind, Run_mbind, time_Since; simpl; rewrite Ht'; simpl;
      unfold keep_sampling; destruct (Z.eqb_spec duration 0); try done;
      rewrite andb_false_r; simpl; rewrite <- !app_assoc; done.
Qed.

End SamplerRuns.

Section SamplerTraces.
Context {W : Type} `{Host W}.

Lemma aborts_at_failure_split {A} (new : list call) (out : outcome A)
    before c after msg :
  aborts_at_failure new out ->
  new = before ++ c :: after -> failed_query c = Some msg ->
  after = [] /\ out = Failed (ErrExternal msg).
Proof.
  revert new. induction before as [|c0 before IH]; intros new Hnew -> Hc; simpl in Hnew.
  - rewrite Hc in Hnew. done.
  - destruct (failed_query c0) as [msg0|].
    + destruct Hnew as [Hnil _]. destruct before; done.
    + eapply IH; done.
Qed.

Ltac step_call op :=
  match goal with
  | |- context [op ?p ?w] =>
      let r := fresh "r" in
      let w' := fresh "w" in
      destruct (op p w) as [[r|r] w']; simpl
  end.

(** Closes the goal of a run that ends here, once the calls made so far
    are read off the final state. *)
Ltac run_ends :=
  intros [= <- <-]; eexists;
  split; [rewrite <- ?app_assoc; simpl; reflexivity|];
  simpl; split; [done|];
  intros ? [= <-]; rewrite ?app_nil_r; done.

Ltac run_ends_silent :=
  intros [= <- <-]; exists []; rewrite app_nil_r; simpl; done.

(** One run of the loop of [New]: a failed metric query ends the run on
    the spot with that error, and a returned run holds, after the samples
    it started with, exactly the samples its calls account for. *)
Lemma sampling_calls fuel proc start duration interval pi running
    (m : machine W) out m' :
  sampling fuel proc start duration interval pi running m = (out, m') ->
  exists new, calls m' = calls m ++ new /\ aborts_at_failure new out /\
    forall pi', out = Returned pi' ->
      Samples pi' = Samples pi ++ samples_of_calls new.
Proof.
  revert pi running m.
  induction fuel as [|fuel IH]; intros pi running m; simpl;
    unfold mbind, Run_mbind, time_Since;
    destruct (runtimeNano (host m)) as [t w]; simpl;
    destruct (keep_sampling duration (Go.Sub t start) running); simpl;
    try run_ends.
  unfold MemoryInfo, IOCounters, CPUPercent, IsRunning, ask, Sleep; simpl.
  step_call (@proc_MemoryInfo W _); [|run_ends].
  step_call (@proc_IOCounters W _); [|run_ends].
  step_call (@proc_CPUPercent W _); [|run_ends].
  step_call (@proc_IsRunning W _); [|run_ends].
  intros Hrun. apply IH in Hrun as (new & Hcalls & Habort & Hsamples).
  simpl in Hcalls, Hsamples. rewrite <- !app_assoc in Hcalls. simpl in Hcalls.
  eexists. split; [exact Hcalls|]. simpl. split; [done|].
  intros pi' Hout. rewrite (Hsamples _ Hout), <- app_assoc. done.
Qed.

(** C7: in every run of the sampler, a metric query (memory, I/O or
    CPU) that fails is the last call the sampler makes, and the call
    returns that query's error and no run, whatever was sampled before.
    A run that is returned holds exactly one sample for each elapsed-time
    reading that was followed by three answered queries: no sample is
    built from fewer. *)
Theorem New_aborts_on_failed_query fuel pid duration interval (m : machine W) out m' :
  New fuel pid duration interval m = (out, m') ->
  exists new, calls m' = calls m ++ new /\
    (forall before c after msg,
       new = before ++ c :: after -> failed_query c = Some msg ->
       after = [] /\ out = Failed (ErrExternal msg)) /\
    (forall pi, out = Returned pi -> Samples pi = samples_of_calls new).
Proof.
  intros Hnew.
  cut (exists new, calls m' = calls m ++ new /\ aborts_at_failure new out /\
         forall pi, out = Returned pi -> Samples pi = samples_of_calls new).
  { intros (new & Hcalls & Habort & Hsamples). exists new.
    split; [done|]. split; [|done].
    intros before c after msg. apply aborts_at_failure_split. done. }
  revert Hnew. unfold New, mbind, Run_mbind, lift.
  destruct (Go.quot duration interval) as [q| | |]; try run_ends_silent.
  destruct (q <? 2); [run_ends_silent|].
  unfold NewProcess, IsRunning, ask, time_Now, make_samples.
  step_call (@process_NewProcess W _); [|run_ends].
  destruct (runtimeNano w) as [t w1]; simpl.
  destruct (makeslice_admits q); simpl; [|run_ends].
  step_call (@proc_IsRunning W _); [|run_ends].
  intros (new & Hcalls & Habort & Hsamples)%sampling_calls.
  simpl in Hcalls, Hsamples. rewrite <- !app_assoc in Hcalls. simpl in Hcalls.
  eexists. split; [exact Hcalls|]. simpl. done.
Qed.

End SamplerTraces.

Section SamplerClock.
Context {W : Type} {HW : Host W} {SW : SteadyClock W}.

Lemma Sub_saturate te ue :
  Go.int64 te -> Go.int64 ue -> Go.Sub te ue = saturate (te - ue).
Proof.
  unfold Go.int64, Go.Sub, Go.wrap64, saturate, Go.minInt64, Go.maxInt64.
  change (2 ^ 63) with 9223372036854775808.
  change (2 ^ 64) with 18446744073709551616.
  intros Hte Hue.
  pose proof (Z.mod_pos_bound (te - ue + 9223372036854775808)
                18446744073709551616 eq_refl) as Hmod.
  pose proof (Z.div_mod (te - ue + 9223372036854775808)
                18446744073709551616 ltac:(done)) as Hdiv.
  set (r := (te - ue + 9223372036854775808) `mod` 18446744073709551616) in *.
  set (k := (te - ue + 9223372036854775808) `div` 18446744073709551616) in *.
  destruct (Z.ltb_spec (r - 9223372036854775808) 0),
           (Z.ltb_spec ue te),
           (Z.ltb_spec 0 (r - 9223372036854775808)),
           (Z.ltb_spec te ue); simpl; lia.
Qed.

Lemma saturate_mono a b : a <= b -> saturate a <= saturate b.
Proof. unfold saturate. lia. Qed.

Lemma saturate_nonneg a : 0 <= a -> 0 <= saturate a.
Proof. unfold saturate, Go.minInt64, Go.maxInt64. lia. Qed.

Lemma steady_upto_snoc bound l d :
  steady_upto bound l -> 0 <= d -> bound <= d -> steady_upto d (l ++ [d]).
Proof.
  intros [Hall Hord] Hpos Hd. split.
  - apply Forall_app. split.
    + eapply Forall_impl; [exact Hall|]. simpl. lia.
    + constructor; [lia|constructor].
  - intros i a b Ha Hb.
    destruct (decide (S i < length l)%nat) as [Hlt|Hge].
    + rewrite lookup_app_l in Ha by lia. rewrite lookup_app_l in Hb by lia.
      eapply Hord; done.
    + assert (S i = length l) as Hlast.
      { apply lookup_lt_Some in Hb. rewrite length_app in Hb. simpl in Hb. lia. }
      rewrite lookup_app_l in Ha by lia.
      rewrite lookup_app_r, Hlast, Nat.sub_diag in Hb by lia.
      injection Hb as <-.
      rewrite Forall_lookup in Hall. specialize (Hall _ _ Ha). simpl in Hall. lia.
Qed.

Ltac step_steady op law :=
  match goal with
  | |- context [op ?p ?w] =>
      let Hlaw := fresh "Hlaw" in
      pose proof (law p w) as Hlaw;
      destruct (op p w) as [[?|?] ?]; simpl in Hlaw |- *; [|done]
  end.

(** Loop invariant of [New] under a steady clock: the elapsed times
    collected so far are non-negative, in non-decreasing order, and none
    exceeds what the clock shows now. *)
Lemma sampling_steady fuel proc start duration interval pi running
    (m : machine W) pi' m' bound :
  Go.int64 start -> start <= mono (host m) ->
  bound <= saturate (mono (host m) - start) ->
  steady_upto bound (elapsed_of pi) ->
  sampling fuel proc start duration interval pi running m = (Returned pi', m') ->
  exists bound', steady_upto bound' (elapsed_of pi').
Proof.
  revert pi running m bound.
  induction fuel as [|fuel IH]; intros pi running m bound Hstart Hm Hbound Hpi; simpl;
    unfold mbind, Run_mbind, time_Since;
    destruct (runtimeNano (host m)) as [t w] eqn:Hread; simpl;
    destruct (keep_sampling duration (Go.Sub t start) running); simpl;
    try done; try (intros [= <- <-]; eauto).
  apply runtimeNano_steady in Hread as (Ht & Hlo & Hhi).
  rewrite Sub_saturate by done.
  unfold MemoryInfo, IOCounters, CPUPercent, IsRunning, ask, Sleep; simpl.
  step_steady (@proc_MemoryInfo W _) MemoryInfo_steady.
  step_steady (@proc_IOCounters W _) IOCounters_steady.
  step_steady (@proc_CPUPercent W _) CPUPercent_steady.
  pose proof (time_Sleep_steady interval w2) as Hsleep.
  step_steady (@proc_IsRunning W _) IsRunning_steady.
  apply IH with (bound := saturate (t - start)); simpl.
  - done.
  - lia.
  - apply saturate_mono. lia.
  - unfold elapsed_of, append. simpl. rewrite fmap_app. simpl.
    eapply steady_upto_snoc; [exact Hpi| |].
    + apply saturate_nonneg. lia.
    + etrans; [exact Hbound|]. apply saturate_mono. lia.
Qed.

(** Under a ticking clock the loop is over after at most
    [duration / interval + 1] iterations: a bound on the iterations that
    exceeds the time left, counted in intervals, is never reached. *)
Lemma sampling_finishes {TW : TickingClock W} fuel proc start duration interval
    pi running (m : machine W) :
  0 < interval -> duration <> 0 -> duration < Go.maxInt64 ->
  Go.int64 start -> start <= mono (host m) ->
  start + duration + interval <= Go.maxInt64 ->
  start + duration - mono (host m) < Z.of_nat fuel * interval ->
  (sampling fuel proc start duration interval pi running m).1 <> Unfinished.
Proof.
  intros Hi Hd Hmax Hstart. revert pi running m.
  induction fuel as [|fuel IH]; intros pi running m Hm Hroom Hleft; simpl;
    unfold mbind, Run_mbind, time_Since, lift;
    destruct (runtimeNano (host m)) as [t w] eqn:Hread; simpl;
    apply runtimeNano_steady in Hread as (Ht & Hlo & Hhi);
    rewrite Sub_saturate by done;
    unfold keep_sampling;
    destruct (Z.eqb_spec duration 0) as [|_]; try done; simpl;
    destruct (Z.leb_spec (saturate (t - start)) duration) as [Hkeep|]; simpl;
    try done; destruct running; simpl; try done.
  - unfold saturate, Go.minInt64, Go.maxInt64 in *. lia.
  - assert (t - start <= duration) as Hin
      by (unfold saturate, Go.minInt64, Go.maxInt64 in *; lia).
    unfold MemoryInfo, IOCounters, CPUPercent, IsRunning, ask, Sleep; simpl.
    step_steady (@proc_MemoryInfo W _) MemoryInfo_steady.
    step_steady (@proc_IOCounters W _) IOCounters_steady.
    step_steady (@proc_CPUPercent W _) CPUPercent_steady.
    pose proof (time_Sleep_ticks interval w2 ltac:(lia)) as Hsleep.
    step_steady (@proc_IsRunning W _) IsRunning_steady.
    apply IH; simpl; unfold Go.maxInt64 in *; lia.
Qed.

Lemma wrap64_id z : Go.int64 z -> Go.wrap64 z = z.
Proof.
  unfold Go.int64, Go.wrap64, Go.minInt64, Go.maxInt64.
  change (2 ^ 63) with 9223372036854775808.
  change (2 ^ 64) with 18446744073709551616.
  intros Hz. rewrite Z.mod_small by lia. lia.
Qed.

(** An accepted configuration with a positive interval has a positive
    duration, shorter than [q + 1] intervals. *)
Lemma quot_accepted_bound duration interval q :
  Go.int64 duration -> 0 < interval ->
  Go.quot duration interval = Returned q -> 2 <= q ->
  0 < duration < (q + 1) * interval.
Proof.
  unfold Go.quot. intros Hd Hi. destruct (Z.eqb_spec interval 0); [lia|].
  intros [= <-] Hq.
  destruct (Z.lt_ge_cases duration 0) as [Hneg|Hpos].
  - exfalso.
    assert (duration <= duration ÷ interval <= 0) as Hrange.
    { rewrite <- (Z.opp_involutive duration), Z.quot_opp_l by lia.
      pose proof (Z.quot_pos (- duration) interval ltac:(lia) ltac:(lia)).
      pose proof (Z.quot_le_upper_bound (- duration) interval (- duration)
                    ltac:(lia) ltac:(nia)).
      lia. }
    rewrite wrap64_id in Hq; [lia|].
    unfold Go.int64, Go.minInt64, Go.maxInt64 in *. lia.
  - assert (0 <= duration ÷ interval <= duration) as Hrange.
    { pose proof (Z.quot_pos duration interval ltac:(lia) ltac:(lia)).
      pose proof (Z.quot_le_upper_bound duration interval duration
                    ltac:(lia) ltac:(nia)).
      lia. }
    rewrite wrap64_id in *
      by (unfold Go.int64, Go.minInt64, Go.maxInt64 in *; lia).
    rewrite Z.quot_div_nonneg in * by lia.
    pose proof (Z.mul_succ_div_gt duration interval ltac:(lia)).
    split; [|lia].
    destruct (Z.eq_dec duration 0) as [->|]; [|lia].
    rewrite Z.div_0_l in Hq by lia. lia.
Qed.

(** Enough fuel gives the result: under a ticking clock that is not about
    to overflow, [New] with a positive interval finishes within
    [duration / interval + 1] iterations of its loop. *)
Lemma New_finishes {TW : TickingClock W} fuel pid duration interval q (m : machine W) :
  Go.int64 duration -> duration < Go.maxInt64 -> 0 < interval ->
  Go.quot duration interval = Returned q -> 2 <= q ->
  (runtimeNano (process_NewProcess pid (host m)).2).1 + duration + interval
    <= Go.maxInt64 ->
  (Z.to_nat q < fuel)%nat ->
  (New fuel pid duration interval m).1 <> Unfinished.
Proof.
  intros Hd Hmax Hi Hq Hle Hroom Hfuel.
  pose proof (quot_accepted_bound _ _ _ Hd Hi Hq Hle) as Hbound.
  unfold New, mbind, Run_mbind, lift. rewrite Hq.
  destruct (Z.ltb_spec q 2); [lia|].
  unfold NewProcess, IsRunning, ask, time_Now, make_samples.
  revert Hroom.
  step_steady (@process_NewProcess W _) NewProcess_steady.
  destruct (runtimeNano w) as [t w1] eqn:Hread; simpl.
  apply runtimeNano_steady in Hread as (Ht & Hlo & Hhi). intros Hroom.
  destruct (makeslice_admits q); simpl; [|done].
  step_steady (@proc_IsRunning W _) IsRunning_steady.
  apply sampling_finishes; simpl; try done; try lia.
  nia.
Qed.

(** C9: under a steady clock, the elapsed times of every run the
    sampler returns are non-negative and each is at least the one of the
    sample before it. *)
Theorem New_elapsed_steady fuel pid duration interval (m : machine W) pi m' :
  New fuel pid duration interval m = (Returned pi, m') ->
  Forall (fun e => 0 <= e) (elapsed_of pi) /\ nondecreasing (elapsed_of pi).
Proof.
  intros Hnew.
  cut (exists bound, steady_upto bound (elapsed_of pi)).
  { intros (bound & Hall & Hord). split; [|done].
    eapply Forall_impl; [exact Hall|]. simpl. lia. }
  revert Hnew. unfold New, mbind, Run_mbind, lift.
  destruct (Go.quot duration interval) as [q| | |]; try done.
  destruct (q <? 2); [done|].
  unfold NewProcess, IsRunning, ask, time_Now, make_samples.
  step_steady (@process_NewProcess W _) NewProcess_steady.
  destruct (runtimeNano w) as [t w1] eqn:Hread; simpl.
  apply runtimeNano_steady in Hread as (Ht & Hlo & Hhi).
  destruct (makeslice_admits q); simpl; [|done].
  step_steady (@proc_IsRunning W _) IsRunning_steady.
  apply sampling_steady with (bound := 0); simpl.
  - done.
  - lia.
  - apply saturate_nonneg. lia.
  - split; [constructor|]. intros i x y Hx. done.
Qed.

End SamplerClock.

(** ** The composite renderer *)

Section RendererTheorems.
Context `{Backend}.

(** A loop whose body never returns an error value never returns one. *)
Lemma for_loop_not_Failed {St} (body : nat -> St -> outcome St) count from st e :
  (forall i st' e', body i st' <> Failed e') ->
  for_loop from count body st <> Failed e.
Proof.
  intros Hbody. revert from st.
  induction count as [|count IH]; intros from st; simpl; [done|].
  destruct (body from st) as [st'| e' | |] eqn:Hb; simpl; try done.
  exfalso. eapply Hbody. exact Hb.
Qed.

Lemma index_not_Failed {T} (l : list T) i e : index l i <> Failed e.
Proof. unfold index. destruct (l !! i); done. Qed.

Lemma draw_cell_not_Failed plots canvases j i img e :
  draw_cell plots canvases j i img <> Failed e.
Proof.
  unfold draw_cell, index.
  destruct (plots !! j) as [row|]; simpl; [|done].
  destruct (row !! i) as [[pl|]|]; simpl; try done.
  destruct (canvases !! j) as [crow|]; simpl; [|done].
  destruct (crow !! i); simpl; done.
Qed.

Lemma draw_all_not_Failed plots canvases rows cols img e :
  draw_all plots canvases rows cols img <> Failed e.
Proof.
  unfold draw_all. apply for_loop_not_Failed. intros j img' e'.
  apply for_loop_not_Failed. intros i img'' e''. apply draw_cell_not_Failed.
Qed.

(** A loop of no iteration, or of iterations that do nothing, leaves the
    state as it is. *)
Lemma for_loop_idle {St} (body : nat -> St -> outcome St) count from st :
  (forall i st', body i st' = Returned st') ->
  for_loop from count body st = Returned st.
Proof.
  intros Hbody. revert from.
  induction count as [|count IH]; intros from; simpl; [done|].
  rewrite Hbody. simpl. apply IH.
Qed.

Lemma draw_all_no_column plots canvases rows img :
  draw_all plots canvases rows 0 img = Returned img.
Proof. unfold draw_all. apply for_loop_idle. done. Qed.

(** A counted loop whose body returns at every index it visits returns. *)
Lemma for_loop_Returned {St} (body : nat -> St -> outcome St) count from st :
  (forall i st', (from <= i < from + count)%nat -> exists st'', body i st' = Returned st'') ->
  exists st', for_loop from count body st = Returned st'.
Proof.
  revert from st.
  induction count as [|count IH]; intros from st Hbody; simpl; [eauto|].
  destruct (Hbody from st) as [st' ->]; [lia|]. simpl.
  apply IH. intros i st'' Hi. apply Hbody. lia.
Qed.

(** On a covered grid no index of the drawing loops is out of range. *)
Lemma draw_all_Returned plots canvases cols img :
  grid_covered cols plots canvases ->
  exists img', draw_all plots canvases (length plots) cols img = Returned img'.
Proof.
  intros Hgrid. unfold draw_all.
  apply for_loop_Returned. intros j imgj Hj.
  destruct (lookup_lt_is_Some_2 plots j) as [row Hrow]; [lia|].
  destruct (Hgrid j row Hrow) as (Hlen & crow & Hcrow & Hclen).
  apply for_loop_Returned. intros i imgi Hi.
  destruct (lookup_lt_is_Some_2 row i) as [p Hp]; [lia|].
  destruct (lookup_lt_is_Some_2 crow i) as [c Hc]; [lia|].
  unfold draw_cell, index. rewrite Hrow. simpl. rewrite Hp. simpl.
  destruct p as [pl|]; [|eauto]. rewrite Hcrow. simpl. rewrite Hc. simpl. eauto.
Qed.

(** A loop whose body always ends never runs short. *)
Lemma for_loop_not_Unfinished {St} (body : nat -> St -> outcome St) count from st :
  (forall i st', body i st' <> Unfinished) ->
  for_loop from count body st <> Unfinished.
Proof.
  intros Hbody. revert from st.
  induction count as [|count IH]; intros from st; simpl; [done|].
  destruct (body from st) as [st'| | |] eqn:Hb; simpl; try done.
  exfalso. eapply Hbody. exact Hb.
Qed.

Lemma draw_all_not_Unfinished plots canvases rows cols img :
  draw_all plots canvases rows cols img <> Unfinished.
Proof.
  unfold draw_all. apply for_loop_not_Unfinished. intros j imgj.
  apply for_loop_not_Unfinished. intros i imgi. unfold draw_cell, index.
  destruct (plots !! j) as [row|]; simpl; [|done].
  destruct (row !! i) as [[pl|]|]; simpl; try done.
  destruct (canvases !! j) as [crow|]; simpl; [|done].
  destruct (crow !! i); simpl; done.
Qed.

(** A counted loop that returns has run its body, with success, at every
    index. *)
Lemma for_loop_visits {St} (body : nat -> St -> outcome St) count from st st' i :
  for_loop from count body st = Returned st' ->
  (from <= i < from + count)%nat ->
  exists s s', body i s = Returned s'.
Proof.
  revert from st.
  induction count as [|count IH]; intros from st; simpl; [lia|].
  destruct (body from st) as [s| | |] eqn:Hb; simpl; try done.
  intros Hloop Hi. destruct (decide (i = from)) as [->|Hne]; [eauto|].
  eapply IH; [exact Hloop|lia].
Qed.

Lemma draw_all_Returned_rows plots canvases rows cols img img' j i :
  draw_all plots canvases rows cols img = Returned img' ->
  (j < rows)%nat -> (i < cols)%nat ->
  exists row p, plots !! j = Some row /\ row !! i = Some p.
Proof.
  intros Hdraw Hj Hi. unfold draw_all in Hdraw.
  destruct (for_loop_visits _ _ _ _ _ j Hdraw) as (s & s' & Hrow); [lia|].
  destruct (for_loop_visits _ _ _ _ _ i Hrow) as (c & c' & Hcell); [lia|].
  unfold draw_cell, index in Hcell.
  destruct (plots !! j) as [row|] eqn:Hplots; simpl in Hcell; [|done].
  destruct (row !! i) as [p|] eqn:Hp; simpl in Hcell; [|done].
  exists row, p. done.
Qed.

(** C6, as the code has it: [Save] validates neither the grid nor the
    size.  An empty panel sequence makes it panic at [plots[0]], before
    any canvas or file exists; a size the canvas layer refuses ends in
    that layer's panic; a row shorter than the first row (an empty row
    below a non-empty one, say) ends in a panic too, of [plot.Align] or of
    [plots[j][i]], and no file is touched; when the first row is empty
    and the canvas layer accepts the size and lays such a grid out,
    [Save] draws nothing and goes on to create the file and write the
    blank image; the only error values it ever returns are those of
    [os.Create] and of the PNG writer; and it does not panic on a
    non-empty sequence whose rows are at least as long as the first, once
    the canvas layer has accepted the size and laid out a canvas for
    every cell. *)
Theorem Save_unvalidated :
  (forall width height filename fs,
     Save [] width height filename fs = (Panicked IndexOutOfRange, fs)) /\
  (forall row plots width height filename fs,
     vgimg_admits width height = false ->
     Save (row :: plots) width height filename fs
     = (Panicked (LibraryPanic "vgimg.New"), fs)) /\
  (forall row0 row plots width height filename fs,
     plots !! 0%nat = Some row0 -> row ∈ plots ->
     (length row < length row0)%nat ->
     exists p, Save plots width height filename fs = (Panicked p, fs)) /\
  (forall plots width height filename fs canvases,
     vgimg_admits width height = true ->
     plot_Align ([] :: plots) {| Rows := S (length plots); Cols := 0 |}
       width height = Some canvases ->
     Save ([] :: plots) width height filename fs
     = (_ ← os_Create filename;
        WriteTo filename
          {| ImageWidth := width; ImageHeight := height; drawn := [] |}) fs) /\
  (forall plots width height filename fs e fs',
     Save plots width height filename fs = (Failed e, fs') ->
     exists msg, e = ErrExternal msg /\
       (os_Create_fault filename = Some msg \/ WriteTo_fault filename = Some msg)) /\
  (forall row plots width height filename fs canvases p,
     vgimg_admits width height = true ->
     plot_Align (row :: plots) {| Rows := S (length plots); Cols := length row |}
       width height = Some canvases ->
     grid_covered (length row) (row :: plots) canvases ->
     (Save (row :: plots) width height filename fs).1 <> Panicked p).
Proof.
  split; [|split; [|split; [|split; [|split]]]].
  - done.
  - intros row plots width height filename fs Hsize.
    unfold Save, mbind, Run_mbind, lift, tiles_of, index, vgimg_New. simpl.
    rewrite Hsize. done.
  - intros row0 row plots width height filename fs Hrow0 Hin Hshort.
    apply list_elem_of_lookup in Hin as [j Hj].
    unfold Save, mbind, Run_mbind, lift, tiles_of, index, vgimg_New, Align.
    rewrite Hrow0. simpl.
    destruct (vgimg_admits width height); [|eauto].
    destruct (plot_Align _ _ _ _) as [canvases|]; [|eauto].
    destruct (draw_all _ _ _ _ _) as [img| | |] eqn:Hdraw; simpl.
    + exfalso.
      destruct (draw_all_Returned_rows _ _ _ _ _ _ j (length row) Hdraw)
        as (row' & p & Hrow' & Hp); [by eapply lookup_lt_Some|done|].
      simplify_eq. apply lookup_lt_Some in Hp. lia.
    + exfalso. eapply draw_all_not_Failed. exact Hdraw.
    + eauto.
    + exfalso. eapply draw_all_not_Unfinished. exact Hdraw.
  - intros plots width height filename fs canvases Hsize Halign.
    unfold Save, mbind, Run_mbind, lift, tiles_of, index, vgimg_New, Align. simpl.
    rewrite Hsize. simpl. rewrite Halign. rewrite draw_all_no_column.
    unfold os_Create, WriteTo.
    destruct (os_Create_fault filename); [done|].
    destruct (WriteTo_fault filename); done.
  - intros plots width height filename fs e fs'.
    unfold Save, mbind, Run_mbind, lift, tiles_of, vgimg_New, Align.
    destruct (index plots 0) as [row0| | |] eqn:Hrow; simpl;
      [|exfalso; eapply index_not_Failed; exact Hrow|done|done].
    destruct (vgimg_admits width height); [|done].
    destruct (plot_Align _ _ _ _) as [canvases|]; [|done].
    destruct (draw_all _ _ _ _ _) as [img| | |] eqn:Hdraw;
      [|exfalso; eapply draw_all_not_Failed; exact Hdraw|done|done].
    unfold os_Create, WriteTo.
    destruct (os_Create_fault filename) as [msg|] eqn:Hcreate.
    { intros [= <- <-]. eauto. }
    destruct (WriteTo_fault filename) as [msg|] eqn:Hwrite.
    { intros [= <- <-]. eauto. }
    done.
  - intros row plots width height filename fs canvases p Hsize Halign Hgrid.
    unfold Save, mbind, Run_mbind, lift, tiles_of, index, vgimg_New, Align. simpl.
    rewrite Hsize. simpl. rewrite Halign.
    destruct (draw_all_Returned (row :: plots) canvases (length row)
                {| ImageWidth := width; ImageHeight := height; drawn := [] |} Hgrid)
      as [img Himg].
    simpl in Himg. rewrite Himg.
    unfold os_Create, WriteTo.
    destruct (os_Create_fault filename); [done|].
    destruct (WriteTo_fault filename); done.
Qed.

(** C8: for the three panels [main] hands over in creation order,
    [Save] asks for a grid of 3 rows and 1 column and draws the memory
    panel into the cell of row 0, the I/O panel into the cell of row 1
    and the CPU panel into the cell of row 2, in this order and nothing
    else; the file written holds that picture. *)
Theorem Save_three_panels_in_order memPlot ioPlot cpuPlot width height filename fs
    c0 c1 c2 r0 r1 r2 more :
  vgimg_admits width height = true ->
  plot_Align (main_plots memPlot ioPlot cpuPlot) {| Rows := 3; Cols := 1 |}
    width height = Some ((c0 :: r0) :: (c1 :: r1) :: (c2 :: r2) :: more) ->
  os_Create_fault filename = None ->
  WriteTo_fault filename = None ->
  tiles_of (main_plots memPlot ioPlot cpuPlot) = Returned {| Rows := 3; Cols := 1 |} /\
  Save (main_plots memPlot ioPlot cpuPlot) width height filename fs
  = (Returned tt,
     <[filename := Some {| ImageWidth := width; ImageHeight := height;
                          drawn := [(c0, memPlot); (c1, ioPlot); (c2, cpuPlot)] |}]> fs).
Proof.
  intros Hsize Halign Hcreate Hwrite. split; [done|].
  unfold Save, mbind, Run_mbind, lift, tiles_of, index, vgimg_New, Align. simpl.
  rewrite Hsize. simpl. rewrite Halign. simpl.
  unfold os_Create, WriteTo. rewrite Hcreate, Hwrite.
  rewrite insert_insert_eq. done.
Qed.

End RendererTheorems.

(** ** The theorems at concrete inputs

    The fake host keeps the promises of the clock. *)

Lemma fake_clock_int64 w : Go.int64 (fake_clock w).
Proof. unfold Go.int64, fake_clock, Go.minInt64, Go.maxInt64. lia. Qed.

Lemma fake_sleep_steady d w : fake_clock w <= fake_clock (fake_sleep d w).
Proof. unfold fake_clock, fake_sleep, Go.maxInt64. simpl. lia. Qed.

Lemma fake_runtimeNano_steady (w : fake) t w' :
  runtimeNano w = (t, w') -> Go.int64 t /\ fake_clock w <= t <= fake_clock w'.
Proof.
  intros [= <- <-]. split; [apply fake_clock_int64|lia].
Qed.

#[global] Instance fake_Steady : SteadyClock fake := {|
  mono := fake_clock;
  runtimeNano_steady := fake_runtimeNano_steady;
  time_Sleep_steady := fake_sleep_steady;
  NewProcess_steady _ w := Z.le_refl (fake_clock w);
  IsRunning_steady _ w := Z.le_refl (fake_clock w);
  MemoryInfo_steady _ w := Z.le_refl (fake_clock w);
  IOCounters_steady _ w := Z.le_refl (fake_clock w);
  CPUPercent_steady _ w := Z.le_refl (fake_clock w)
|}.

Lemma fake_sleep_ticks d w :
  0 <= d -> Z.min Go.maxInt64 (fake_clock w + d) <= fake_clock (fake_sleep d w).
Proof. unfold fake_clock, fake_sleep, Go.maxInt64. simpl. lia. Qed.

#[global] Instance fake_Ticking : TickingClock fake :=
  {| time_Sleep_ticks := fake_sleep_ticks |}.

(** The default run of the tool, [-d 10s -i 50ms]: 201 iterations are
    enough, whatever the process does. *)
Lemma New_finishes_by_default :
  (New 201 42 10000000000 50000000 (boot lively)).1 <> Unfinished.
Proof.
  apply (New_finishes 201 42 10000000000 50000000 200 (boot lively));
    try reflexivity; try (vm_compute; discriminate).
  - split; vm_compute; discriminate.
  - simpl. lia.
Qed.

(** The default interval [-i 50ms] with [-d 0]. *)
Lemma New_zero_duration_rejected_witness :
  50000000 <> 0 /\
  New 8 42 0 50000000 (boot lively) = (Failed ErrNeedTwoSamples, boot lively).
Proof.
  split; [lia|]. apply New_zero_duration_rejected. lia.
Defined.

(** C2: on a run whose only sample counts 1 read and 2 writes, the series
    legended "IO Write" of the panel [IoPlot] returns holds the read count
    1, not the write count 2. *)
Theorem IoPlot_write_series_shows_reads :
  @IoPlot lenient short_run = Returned short_io_panel /\
  ReadCount (io one_sample) = 1 /\ WriteCount (io one_sample) = 2 /\
  exists lW,
    legend_series "IO Write" short_io_panel = Some lW /\
    LineXYs lW = [read_point one_sample] /\
    plotter.Y <$> LineXYs lW <> [Go.float64 (WriteCount (io one_sample))].
Proof.
  split; [vm_compute; reflexivity|]. do 2 (split; [reflexivity|]).
  eexists. split; [vm_compute; reflexivity|]. split; [vm_compute; reflexivity|].
  intros Heq.
  apply (f_equal (fun ys => match ys with
                            | [y] => PrimFloat.eqb y 1
                            | _ => false
                            end)) in Heq.
  vm_compute in Heq. discriminate Heq.
Qed.

(** [-d 500ms -i 1s] is turned down without a call to the host; a run of
    duration 3 and interval 1 is not, and its quotient is at least 2. *)
Lemma New_needs_two_samples_witness :
  (Go.quot 500000000 1000000000 = Returned 0 /\ 0 < 2 /\
   New 8 42 500000000 1000000000 (boot lively)
   = (Failed ErrNeedTwoSamples, boot lively)) /\
  (exists out m',
     New 8 42 3 1 (boot lively) = (out, m') /\
     out <> Failed ErrNeedTwoSamples /\ out <> Panicked DivideByZero /\
     exists q, Go.quot 3 1 = Returned q /\ 2 <= q).
Proof.
  split.
  - split; [reflexivity|]. split; [lia|].
    apply (proj1 (New_needs_two_samples 8 42 500000000 1000000000 (boot lively)) 0);
      [reflexivity|lia].
  - destruct (New 8 42 3 1 (boot lively)) as [out m'] eqn:Hrun.
    exists out, m'. split; [reflexivity|].
    assert (exists pi, out = Returned pi) as [pi ->].
    { vm_compute in Hrun. injection Hrun as <- _. eexists. reflexivity. }
    split; [discriminate|]. split; [discriminate|].
    apply (proj2 (New_needs_two_samples 8 42 3 1 (boot lively)) _ _ Hrun);
      discriminate.
Defined.

(** C4 fails on the code: the process of world [lapsed] is known to the
    system but not running when [New] is called ([-d 10s -i 50ms]); the
    call returns a run, with no sample, and no error. *)
Lemma New_not_running_returns_run :
  proc_IsRunning 42 lapsed = (Ans false, lapsed) /\
  exists m',
    New 8 42 10000000000 50000000 (boot lapsed)
    = (Returned {| Pid := 42; StartTime := 100; SamplingInterval := 50000000;
                   Samples := [] |}, m').
Proof.
  split; [reflexivity|]. eexists. vm_compute. reflexivity.
Qed.

Lemma New_unresolved_or_not_running_witness :
  New 8 42 10000000000 50000000 (boot unknown)
  = (Failed (ErrExternal "process does not exist"),
     {| host := unknown;
        calls := [CallNewProcess 42 (Fault "process does not exist")] |}) /\
  New 8 42 10000000000 50000000 (boot lapsed)
  = (Returned {| Pid := 42; StartTime := 100; SamplingInterval := 50000000;
                 Samples := [] |},
     {| host := lapsed;
        calls := [CallNewProcess 42 (Ans tt); CallNow 100;
                  CallIsRunning (Ans false); CallSince 0] |}).
Proof.
  split.
  - apply (proj1 (New_unresolved_or_not_running 8 42 10000000000 50000000 200
                    (boot unknown) eq_refl ltac:(lia))).
    reflexivity.
  - apply (proj2 (proj2 (New_unresolved_or_not_running 8 42 10000000000 50000000 200
                           (boot lapsed) eq_refl ltac:(lia)))
             lapsed 100 lapsed lapsed 100 lapsed); reflexivity.
Defined.

(** C5 fails on the code: with a plot library that accepts an empty
    series, each builder returns a panel for a run without samples. *)
Lemma builders_return_panel_for_empty_run :
  Samples idle_run = [] /\
  (exists pl, @MemPlot lenient idle_run = Returned pl) /\
  (exists pl, @IoPlot lenient idle_run = Returned pl) /\
  (exists pl, @CpuPlot lenient idle_run = Returned pl).
Proof.
  split; [reflexivity|]. repeat split; eexists; vm_compute; reflexivity.
Qed.

Lemma builders_on_empty_run_witness :
  Samples idle_run = [] /\
  exists plm pli plc,
    @MemPlot lenient idle_run = Returned plm /\
    @IoPlot lenient idle_run = Returned pli /\
    @CpuPlot lenient idle_run = Returned plc /\
    Forall (fun l => LineXYs l = []) (series plm ++ series pli ++ series plc).
Proof.
  split; [reflexivity|].
  exact (@builders_on_empty_run lenient idle_run eq_refl).
Defined.

(** C6 fails on the code: [Save] on an empty panel sequence panics. *)
Lemma Save_empty_sequence_panics :
  @Save simple_backend [] 10 8 "pinfo.png" ∅ = (Panicked IndexOutOfRange, ∅).
Proof. reflexivity. Qed.

Lemma Save_unvalidated_witness :
  @Save simple_backend [[Some short_mem_panel]] (-10) 8 "pinfo.png" ∅
  = (Panicked (LibraryPanic "vgimg.New"), ∅) /\
  (exists p,
     @Save simple_backend [[Some short_mem_panel]; []] 10 8 "pinfo.png" ∅
     = (Panicked p, ∅)) /\
  @Save simple_backend [[]] 10 8 "pinfo.png" ∅
  = (Returned tt,
     {["pinfo.png" := Some {| ImageWidth := 10; ImageHeight := 8; drawn := [] |}]}) /\
  (exists msg,
     ErrExternal "permission denied" = ErrExternal msg /\
     (@os_Create_fault simple_backend "/proc/1/pinfo.png" = Some msg \/
      @WriteTo_fault simple_backend "/proc/1/pinfo.png" = Some msg)) /\
  (@Save simple_backend [[Some short_mem_panel; None]; [None; Some short_cpu_panel]]
     10 8 "pinfo.png" ∅).1 <> Panicked IndexOutOfRange.
Proof.
  pose proof (@Save_unvalidated simple_backend)
    as (_ & Hsize & Hshort & Hrow & Herr & Hsafe).
  split; [|split; [|split; [|split]]].
  - apply Hsize. reflexivity.
  - apply (Hshort [Some short_mem_panel] []); [reflexivity| |simpl; lia].
    apply list_elem_of_lookup. exists 1%nat. reflexivity.
  - rewrite (Hrow [] 10%float 8%float "pinfo.png" ∅ [[]] eq_refl eq_refl).
    vm_compute. reflexivity.
  - apply (Herr [[Some short_mem_panel]] 10%float 8%float "/proc/1/pinfo.png" ∅ _ ∅).
    reflexivity.
  - apply (Hsafe [Some short_mem_panel; None] [[None; Some short_cpu_panel]]
             10%float 8%float "pinfo.png" ∅
             [[unit_cell 0 0; unit_cell 0 1]; [unit_cell 1 0; unit_cell 1 1]]);
      [reflexivity|reflexivity|].
    intros [|[|j]] row; simpl; intros [= <-]; simpl.
    + split; [lia|]. eexists. split; [reflexivity|]. simpl. lia.
    + split; [lia|]. eexists. split; [reflexivity|]. simpl. lia.
Defined.

(** The I/O counters of world [guarded] become unreadable during the run:
    [New] stops at that query. *)
Lemma New_aborts_on_failed_query_witness :
  exists m',
    New 8 42 30 10 (boot guarded) = (Failed (ErrExternal "permission denied"), m') /\
    exists new, calls m' = calls (boot guarded) ++ new /\
      (forall before c after msg,
         new = before ++ c :: after -> failed_query c = Some msg ->
         after = [] /\
         @Failed ProcessInfo (ErrExternal "permission denied") = Failed (ErrExternal msg)) /\
      (forall pi, Failed (ErrExternal "permission denied") = Returned pi ->
         Samples pi = samples_of_calls new).
Proof.
  eexists. split; [vm_compute; reflexivity|].
  apply (New_aborts_on_failed_query 8 42 30 10 (boot guarded)).
  vm_compute. reflexivity.
Defined.

Lemma Save_three_panels_in_order_witness :
  @Save simple_backend (main_plots short_mem_panel short_io_panel short_cpu_panel)
    10 8 "pinfo.png" ∅
  = (Returned tt,
     {["pinfo.png" :=
         Some {| ImageWidth := 10; ImageHeight := 8;
                 drawn := [(unit_cell 0 0, short_mem_panel);
                           (unit_cell 1 0, short_io_panel);
                           (unit_cell 2 0, short_cpu_panel)] |}]}).
Proof.
  apply (proj2 (@Save_three_panels_in_order simple_backend
                  short_mem_panel short_io_panel short_cpu_panel
                  10%float 8%float "pinfo.png" ∅
                  (unit_cell 0 0) (unit_cell 1 0) (unit_cell 2 0) [] [] [] []
                  eq_refl eq_refl eq_refl eq_refl)).
Defined.

(** A run of duration 3 and interval 1 on a live process: samples at
    elapsed times 0, 1, 2 and 3. *)
Lemma New_elapsed_steady_witness :
  exists pi m',
    New 8 42 3 1 (boot lively) = (Returned pi, m') /\
    elapsed_of pi = [0; 1; 2; 3] /\
    Forall (fun e => 0 <= e) (elapsed_of pi) /\ nondecreasing (elapsed_of pi).
Proof.
  eexists _, _. split; [vm_compute; reflexivity|]. split; [reflexivity|].
  eapply (New_elapsed_steady 8 42 3 1 (boot lively)). vm_compute. reflexivity.
Defined.


(** * Further properties *)

(** ** The sampler's loop, call by call *)

Section SamplerLog.
Context {W : Type} `{Host W}.

Lemma keep_sampling_within duration t running :
  duration <> 0 -> keep_sampling duration t running = true ->
  t <= duration /\ running = true.
Proof.
  unfold keep_sampling. intros Hd.
  destruct (Z.eqb_spec duration 0); [done|]. simpl.
  destruct (Z.leb_spec t duration); simpl; [|done]. intros ->. done.
Qed.

Lemma quits_when_not_running_split {A} (new : list call) (out : outcome A)
    before after :
  quits_when_not_running new out ->
  new = before ++ CallIsRunning (Ans false) :: after ->
  (exists d, after = [CallSince d]) /\ (exists a, out = Returned a).
Proof.
  revert new. induction before as [|c before IH]; intros new Hnew ->; simpl in Hnew.
  - done.
  - destruct c as [| | | |[[|]|]| | |]; try (eapply IH; done).
    destruct Hnew as [[d Hrest] _]. destruct before; simplify_eq.
    destruct before; simplify_eq.
Qed.

Ltac step_log op :=
  match goal with
  | |- context [op ?p ?w] => destruct (op p w) as [[?|?] ?]; simpl
  end.

Ltac log_ends :=
  intros [= <- <-]; eexists;
  split; [rewrite <- ?app_assoc; simpl; reflexivity|];
  simpl; repeat split; try done; try (repeat constructor; done);
  try (intros; simplify_eq; eauto with lia).

(** What one run of the loop of [New] does, for a duration other than 0. *)
Lemma sampling_log fuel proc start duration interval pi running
    (m : machine W) out m' :
  duration <> 0 ->
  sampling fuel proc start duration interval pi running m = (out, m') ->
  exists new, calls m' = calls m ++ new /\
    Forall (fun d => d = interval) (sleeps new) /\
    quits_when_not_running new out /\
    (running = false -> (exists d, new = [CallSince d]) /\ out = Returned pi) /\
    forall pi', out = Returned pi' ->
      Pid pi' = Pid pi /\ StartTime pi' = StartTime pi /\
      SamplingInterval pi' = SamplingInterval pi /\
      length (Samples pi') = (length (Samples pi) + length (sleeps new))%nat /\
      (Forall (fun e => e <= duration) (elapsed_of pi) ->
       Forall (fun e => e <= duration) (elapsed_of pi')).
Proof.
  intros Hd. revert pi running m.
  induction fuel as [|fuel IH]; intros pi running m; simpl;
    unfold mbind, Run_mbind, time_Since, lift;
    destruct (runtimeNano (host m)) as [t w]; simpl;
    destruct (keep_sampling duration (Go.Sub t start) running) eqn:Hkeep; simpl;
    unfold mret, Run_mret;
    try apply (keep_sampling_within _ _ _ Hd) in Hkeep as [Hin ->].
  - log_ends.
  - log_ends.
  - unfold MemoryInfo, IOCounters, CPUPercent, IsRunning, ask, Sleep; simpl.
    step_log (@proc_MemoryInfo W _); [|log_ends].
    step_log (@proc_IOCounters W _); [|log_ends].
    step_log (@proc_CPUPercent W _); [|log_ends].
    destruct (proc_IsRunning proc _) as [[alive|?] ?]; simpl; [|log_ends].
    intros Hrun. apply IH in Hrun as (new & Hcalls & Hsleeps & Hquits & Hfalse & Hfacts).
    simpl in Hcalls. rewrite <- !app_assoc in Hcalls. simpl in Hcalls.
    eexists. split; [exact Hcalls|]. simpl.
    split; [constructor; done|]. split.
    { destruct alive; [done|]. destruct (Hfalse eq_refl) as [Hnew ->]. eauto. }
    split; [done|].
    intros pi' Hout. destruct (Hfacts _ Hout) as (? & ? & ? & Hlen & Hall).
    simpl in *. repeat split; try done.
    + rewrite Hlen, length_app. simpl. lia.
    + intros Hpi. apply Hall. unfold elapsed_of. simpl. rewrite fmap_app.
      apply Forall_app. split; [done|]. repeat constructor. done.
  - log_ends.
Qed.

End SamplerLog.

Section SamplerLogTheorems.
Context {W : Type} `{Host W}.

(** What one call of [New] does, call by call. *)
Lemma New_log fuel pid duration interval (m : machine W) out m' :
  New fuel pid duration interval m = (out, m') ->
  exists new, calls m' = calls m ++ new /\
    Forall (fun d => d = interval) (sleeps new) /\
    quits_when_not_running new out /\
    forall pi, out = Returned pi ->
      Pid pi = pid /\ SamplingInterval pi = interval /\
      (exists rest, new = CallNewProcess pid (Ans tt) :: CallNow (StartTime pi) :: rest) /\
      length (Samples pi) = length (sleeps new) /\
      Forall (fun e => e <= duration) (elapsed_of pi).
Proof.
  unfold New, mbind, Run_mbind, lift.
  destruct (Go.quot duration interval) as [q| | |] eqn:Hq;
    try (intros [= <- <-]; exists []; rewrite app_nil_r; done).
  destruct (Z.ltb_spec q 2) as [|Hle];
    [intros [= <- <-]; exists []; rewrite app_nil_r; done|].
  pose proof (quot_accepted_nonzero _ _ _ Hq Hle) as Hd.
  unfold NewProcess, IsRunning, ask, time_Now, make_samples.
  destruct (process_NewProcess pid (host m)) as [[[]|?] ?]; simpl;
    [|intros [= <- <-]; eexists [_]; done].
  destruct (runtimeNano _) as [t w1]; simpl.
  destruct (makeslice_admits q); simpl;
    [|intros [= <- <-]; eexists [_; _]; simpl; rewrite <- !app_assoc; done].
  destruct (proc_IsRunning pid w1) as [[alive|?] ?]; simpl;
    [|intros [= <- <-]; eexists [_; _; _]; simpl; rewrite <- !app_assoc; done].
  intros Hrun.
  apply sampling_log in Hrun as (new & Hcalls & Hsleeps & Hquits & Hfalse & Hfacts);
    [|done].
  simpl in Hcalls. rewrite <- !app_assoc in Hcalls. simpl in Hcalls.
  eexists. split; [exact Hcalls|]. simpl. split; [done|]. split.
  { destruct alive; [done|]. destruct (Hfalse eq_refl) as [Hnew ->]. eauto. }
  intros pi Hout. destruct (Hfacts _ Hout) as (Hpid & Hstart & Hint & Hlen & Hall).
  simpl in *. rewrite Hstart. repeat split; eauto.
Qed.

(** X1: no sample of a returned run is timestamped past the duration
    asked for. *)
Theorem New_samples_within_duration fuel pid duration interval (m : machine W) pi m' :
  New fuel pid duration interval m = (Returned pi, m') ->
  Forall (fun e => e <= duration) (elapsed_of pi).
Proof.
  intros (new & _ & _ & _ & Hfacts)%New_log.
  destruct (Hfacts pi eq_refl) as (_ & _ & _ & _ & Hall). done.
Qed.

(** X2: once the process answers that it is not running, the sampler
    reads the clock one more time and returns the run: no metric is
    queried and no sleep is taken past that answer. *)
Theorem New_returns_once_not_running fuel pid duration interval (m : machine W) out m' :
  New fuel pid duration interval m = (out, m') ->
  exists new, calls m' = calls m ++ new /\
    forall before after,
      new = before ++ CallIsRunning (Ans false) :: after ->
      (exists d, after = [CallSince d]) /\ (exists pi, out = Returned pi).
Proof.
  intros (new & Hcalls & _ & Hquits & _)%New_log.
  exists new. split; [done|]. intros before after.
  apply quits_when_not_running_split. done.
Qed.

(** X3: the sampler sleeps for exactly the interval asked for, never for
    another duration, and a returned run holds one sample for each sleep
    taken. *)
Theorem New_sleeps_once_per_sample fuel pid duration interval (m : machine W) out m' :
  New fuel pid duration interval m = (out, m') ->
  exists new, calls m' = calls m ++ new /\
    Forall (fun d => d = interval) (sleeps new) /\
    forall pi, out = Returned pi -> length (Samples pi) = length (sleeps new).
Proof.
  intros (new & Hcalls & Hsleeps & _ & Hfacts)%New_log.
  exists new. split; [done|]. split; [done|].
  intros pi Hout. destruct (Hfacts pi Hout) as (_ & _ & _ & Hlen & _). done.
Qed.

(** X4: a returned run names the process and the interval it was asked
    for, and its start time is the clock reading taken right after the
    process was resolved, before anything is sampled. *)
Theorem New_run_header fuel pid duration interval (m : machine W) pi m' :
  New fuel pid duration interval m = (Returned pi, m') ->
  Pid pi = pid /\ SamplingInterval pi = interval /\
  exists rest,
    calls m' = calls m ++ CallNewProcess pid (Ans tt) :: CallNow (StartTime pi) :: rest.
Proof.
  intros (new & Hcalls & _ & _ & Hfacts)%New_log.
  destruct (Hfacts pi eq_refl) as (Hpid & Hint & [rest ->] & _ & _).
  split; [done|]. split; [done|]. exists rest. done.
Qed.

End SamplerLogTheorems.

(** ** The sampler against the clock *)

Section SamplerBounds.
Context {W : Type} {HW : Host W} {SW : SteadyClock W}.

Ltac step_clock op law :=
  match goal with
  | |- context [op ?p ?w] =>
      let Hlaw := fresh "Hlaw" in
      pose proof (law p w) as Hlaw;
      destruct (op p w) as [[?|?] ?]; simpl in Hlaw |- *; [|done]
  end.

(** With the time left counted in intervals, the loop adds at most that
    many samples. *)
Lemma sampling_count {TW : TickingClock W} fuel proc start duration interval
    pi running (m : machine W) pi' m' (n : nat) :
  0 < interval -> duration <> 0 -> duration < Go.maxInt64 ->
  Go.int64 start -> start <= mono (host m) ->
  start + duration + interval <= Go.maxInt64 ->
  start + duration - mono (host m) < Z.of_nat n * interval ->
  sampling fuel proc start duration interval pi running m = (Returned pi', m') ->
  (length (Samples pi') <= length (Samples pi) + n)%nat.
Proof.
  intros Hi Hd Hmax Hstart. revert pi running m n.
  induction fuel as [|fuel IH]; intros pi running m n Hm Hroom Hleft; simpl;
    unfold mbind, Run_mbind, time_Since, lift, mret, Run_mret;
    destruct (runtimeNano (host m)) as [t w] eqn:Hread; simpl;
    apply runtimeNano_steady in Hread as (Ht & Hlo & Hhi);
    rewrite Sub_saturate by done;
    destruct (keep_sampling duration (saturate (t - start)) running) eqn:Hkeep;
    simpl; try done; try (intros [= <- _]; lia).
  apply (keep_sampling_within _ _ _ Hd) in Hkeep as [Hin ->].
  assert (t - start <= duration) as Hreal
    by (unfold saturate, Go.minInt64, Go.maxInt64 in *; lia).
  destruct n as [|n]; [lia|].
  unfold MemoryInfo, IOCounters, CPUPercent, IsRunning, ask, Sleep; simpl.
  step_clock (@proc_MemoryInfo W _) MemoryInfo_steady.
  step_clock (@proc_IOCounters W _) IOCounters_steady.
  step_clock (@proc_CPUPercent W _) CPUPercent_steady.
  pose proof (time_Sleep_ticks interval w2 ltac:(lia)) as Hsleep.
  step_clock (@proc_IsRunning W _) IsRunning_steady.
  intros Hrun. apply (IH _ _ _ n) in Hrun; simpl in *.
  - rewrite length_app in Hrun. simpl in Hrun. lia.
  - unfold Go.maxInt64 in *. lia.
  - lia.
  - unfold Go.maxInt64 in *. lia.
Qed.

(** X5: with a positive interval and a clock that [time.Sleep] moves on,
    an accepted call of the sampler comes to an end within
    [duration / interval + 1] iterations of its loop, and the run it
    returns holds at most [duration / interval + 1] samples. *)
Theorem New_bounded_run {TW : TickingClock W} fuel pid duration interval q
    (m : machine W) out m' :
  Go.int64 duration -> duration < Go.maxInt64 -> 0 < interval ->
  Go.quot duration interval = Returned q -> 2 <= q ->
  (runtimeNano (process_NewProcess pid (host m)).2).1 + duration + interval
    <= Go.maxInt64 ->
  New fuel pid duration interval m = (out, m') ->
  ((Z.to_nat q < fuel)%nat -> out <> Unfinished) /\
  (forall pi, out = Returned pi -> (length (Samples pi) <= Z.to_nat q + 1)%nat).
Proof.
  intros Hd Hmax Hi Hq Hle Hroom.
  pose proof (quot_accepted_bound _ _ _ Hd Hi Hq Hle) as Hbound.
  unfold New, mbind, Run_mbind, lift. rewrite Hq.
  destruct (Z.ltb_spec q 2); [lia|].
  unfold NewProcess, IsRunning, ask, time_Now, make_samples.
  revert Hroom.
  destruct (process_NewProcess pid (host m)) as [[?|?] w] eqn:Hnp; simpl;
    [|intros _ [= <- _]; done].
  pose proof (NewProcess_steady pid (host m)) as Hlaw. rewrite Hnp in Hlaw.
  destruct (runtimeNano w) as [t w1] eqn:Hread; simpl.
  apply runtimeNano_steady in Hread as (Ht & Hlo & Hhi). intros Hroom.
  destruct (makeslice_admits q); simpl; [|intros [= <- _]; done].
  pose proof (IsRunning_steady pid w1) as Halive.
  destruct (proc_IsRunning pid w1) as [[alive|?] w2]; simpl in *;
    [|intros [= <- _]; done].
  intros Hrun. split.
  - intros Hfuel Hout. subst out.
    eapply (sampling_finishes fuel pid t duration interval); [..|rewrite Hrun; done];
      simpl; try done; try lia; nia.
  - intros pi ->.
    apply (sampling_count _ _ _ _ _ _ _ _ _ _ (Z.to_nat q + 1)%nat) in Hrun;
      simpl in *; try done; try lia; nia.
Qed.

Ltac ends_quietly :=
  intros [= <- <-]; split; [done|];
  split; [intros ? ?; simplify_eq; done|];
  eexists; split;
    [first [rewrite <- ?app_assoc; simpl; reflexivity | symmetry; apply app_nil_r]
    |repeat constructor].

(** X6: a negative duration (with a negative interval, so that the
    configuration is accepted) makes the sampler return at once: the run
    is empty, and no metric is queried and no sleep taken. *)
Theorem New_negative_duration fuel pid duration interval (m : machine W) out m' :
  duration < 0 ->
  New fuel pid duration interval m = (out, m') ->
  out <> Unfinished /\
  (forall pi, out = Returned pi -> Samples pi = []) /\
  exists new, calls m' = calls m ++ new /\ Forall (fun c => is_poll c = false) new.
Proof.
  intros Hneg. unfold New, mbind, Run_mbind, lift, Go.quot.
  destruct (interval =? 0); [ends_quietly|].
  destruct (_ <? 2); [ends_quietly|].
  unfold NewProcess, IsRunning, ask, time_Now, make_samples.
  destruct (process_NewProcess pid (host m)) as [[?|?] w] eqn:Hnp; simpl;
    [|ends_quietly].
  pose proof (NewProcess_steady pid (host m)) as Hlaw. rewrite Hnp in Hlaw.
  destruct (runtimeNano w) as [t w1] eqn:Hread; simpl.
  apply runtimeNano_steady in Hread as (Ht & Hlo & Hhi).
  destruct (makeslice_admits _); simpl; [|ends_quietly].
  pose proof (IsRunning_steady pid w1) as Halive.
  destruct (proc_IsRunning pid w1) as [[alive|?] w2]; simpl in *; [|ends_quietly].
  assert (forall w3 t', runtimeNano w2 = (t', w3) ->
            keep_sampling duration (Go.Sub t' t) alive = false) as Hquit.
  { intros w3 t' (Ht' & Hlo' & _)%runtimeNano_steady.
    rewrite Sub_saturate by done. unfold keep_sampling.
    destruct (Z.eqb_spec duration 0); [lia|]. simpl.
    pose proof (saturate_nonneg (t' - t) ltac:(lia)).
    destruct (Z.leb_spec (saturate (t' - t)) duration); [lia|]. done. }
  destruct fuel; simpl; unfold mbind, Run_mbind, time_Since, mret, Run_mret; simpl;
    destruct (runtimeNano w2) as [t' w3]; simpl;
    rewrite (Hquit _ _ eq_refl); ends_quietly.
Qed.

End SamplerBounds.

(** ** The plot builders, in closed form *)

Section BuilderPanels.
Context `{PlotLib}.

(** What a builder returns is decided by the plot library alone: the
    first failure among [plot.New] and the calls of [plotter.NewLine], or
    else the panel. *)
Lemma build_closed b pi :
  build b pi =
    match plot_New_fault with
    | Some msg => Failed (ErrExternal msg)
    | None =>
        match list_find is_Some (NewLine_fault <$> lines_asked b pi) with
        | Some (_, Some msg) => Failed (ErrExternal msg)
        | _ => Returned (panel_of b pi)
        end
    end.
Proof.
  destruct b; simpl; unfold MemPlot, IoPlot, CpuPlot, plot_New;
    destruct plot_New_fault; simpl; try done;
    rewrite ?MemPlot_range, ?IoPlot_range, ?CpuPlot_range; simpl; unfold NewLine;
    repeat (match goal with
            | |- context [NewLine_fault ?xys] =>
                destruct (NewLine_fault xys) eqn:?; simpl
            end; try done);
    repeat case_decide; simpl; try done;
    exfalso; match goal with Hn : ¬ is_Some _ |- _ => apply Hn; eauto end.
Qed.

End BuilderPanels.

Section BuilderPanelTheorems.
Context `{PlotLib}.

Lemma build_Returned b pi pl : build b pi = Returned pl -> pl = panel_of b pi.
Proof.
  rewrite build_closed. destruct plot_New_fault; [done|].
  destruct (list_find _ _) as [[? [?|]]|]; congruence.
Qed.

(** X7: a builder never panics and never invents an error.  Either the
    plot library accepts [plot.New] and every series, and the builder
    returns the panel of the run; or the builder fails with the error of
    [plot.New] or of [plotter.NewLine] on one of its series. *)
Theorem builders_outcome b pi :
  (build b pi = Returned (panel_of b pi) /\
   plot_New_fault = None /\
   Forall (fun xys => NewLine_fault xys = None) (lines_asked b pi)) \/
  (exists msg, build b pi = Failed (ErrExternal msg) /\
     (plot_New_fault = Some msg \/
      exists xys, xys ∈ lines_asked b pi /\ NewLine_fault xys = Some msg)).
Proof.
  rewrite build_closed. destruct plot_New_fault as [msg|]; [right; eauto|].
  destruct (list_find _ _) as [[k [msg|]]|] eqn:Hfind.
  - right. exists msg. split; [done|]. right.
    apply list_find_Some in Hfind as (Hk & _ & _).
    rewrite list_lookup_fmap in Hk.
    destruct (lines_asked b pi !! k) as [xys|] eqn:Hxys; [|done].
    exists xys. split; [eapply list_elem_of_lookup_2; done|].
    simpl in Hk. congruence.
  - apply list_find_Some in Hfind as (_ & [? ?] & _). done.
  - left. split; [done|]. split; [done|].
    apply list_find_None in Hfind. rewrite Forall_fmap in Hfind.
    eapply Forall_impl; [exact Hfind|]. simpl. intros xys Hn.
    destruct (NewLine_fault xys); [|done]. exfalso. apply Hn. eauto.
Qed.

(** X8: in a panel a builder returns, the series found in the legend
    under RSS, VMS, IO Read and CPU hold, for the [i]-th sample, its
    resident and virtual memory in KB (bytes / 1024), its count of read
    operations and its CPU figure times 100. *)
Theorem builders_series_values pi i s :
  Samples pi !! i = Some s ->
  (forall pl, MemPlot pi = Returned pl ->
     exists lRss lVms,
       legend_series "RSS" pl = Some lRss /\ legend_series "VMS" pl = Some lVms /\
       plotter.Y <$> LineXYs lRss !! i = Some (Go.float64 (RSS (mem s)) / 1024)%float /\
       plotter.Y <$> LineXYs lVms !! i = Some (Go.float64 (VMS (mem s)) / 1024)%float) /\
  (forall pl, IoPlot pi = Returned pl ->
     exists lR,
       legend_series "IO Read" pl = Some lR /\
       plotter.Y <$> LineXYs lR !! i = Some (Go.float64 (ReadCount (io s)))) /\
  (forall pl, CpuPlot pi = Returned pl ->
     exists l,
       legend_series "CPU" pl = Some l /\
       plotter.Y <$> LineXYs l !! i = Some (cpu s * 100)%float).
Proof.
  intros Hs. split; [|split].
  - intros pl ->%(build_Returned Memory). eexists _, _.
    split; [reflexivity|]. split; [reflexivity|]. simpl.
    rewrite !list_lookup_fmap, Hs. done.
  - intros pl ->%(build_Returned IO). eexists.
    split; [reflexivity|]. simpl. rewrite !list_lookup_fmap, Hs. done.
  - intros pl ->%(build_Returned CPU). eexists.
    split; [reflexivity|]. simpl. rewrite !list_lookup_fmap, Hs. done.
Qed.

(** X9: every panel a builder returns draws the grid first and then its
    series; the legend lists exactly the series drawn, in the same order,
    under distinct names; every series is one point wide, and the series
    of a panel have distinct colours. *)
Theorem builders_legend_and_style b pi pl :
  build b pi = Returned pl ->
  plotters pl = Grid :: (LinePlotter <$> series pl) /\
  (Legend pl).*2 = series pl /\
  NoDup (Legend pl).*1 /\
  Forall (fun l => LineWidth l = 1%float) (series pl) /\
  NoDup (LineColor <$> series pl).
Proof.
  intros ->%build_Returned.
  destruct b; simpl; (split; [done|]); (split; [done|]); split;
    try (split; [repeat constructor|]);
    repeat (apply NoDup_cons_2; [rewrite ?elem_of_cons, elem_of_nil; intros Hin; 
                                 repeat destruct Hin as [Hin|Hin]; done|]);
    apply NoDup_nil_2.
Qed.

(** X10: one more sample at the end of a run adds one point at the end
    of every series, at that sample's elapsed time, and leaves the points
    and the colour of the series as they were. *)
Theorem builders_extend b pi s pl pl' :
  build b pi = Returned pl ->
  build b (append pi s) = Returned pl' ->
  Forall2 (fun l l' =>
             exists p, LineXYs l' = LineXYs l ++ [p] /\
               plotter.X p = Go.Seconds (interval s) /\
               LineColor l' = LineColor l)
          (series pl) (series pl').
Proof.
  intros ->%build_Returned ->%build_Returned.
  destruct b; simpl;
    repeat (constructor;
            [eexists; unfold styled, append; simpl; rewrite fmap_app; simpl;
             repeat split; reflexivity|]);
    constructor.
Qed.

End BuilderPanelTheorems.

(** ** The composite renderer on any grid *)

Section RendererGrid.
Context `{Backend}.

Lemma paint_nil img : paint [] img = img.
Proof. destruct img. unfold paint. simpl. rewrite app_nil_r. done. Qed.

Lemma paint_paint a b img : paint b (paint a img) = paint (a ++ b) img.
Proof. unfold paint. simpl. rewrite app_assoc. done. Qed.

(** A counted loop whose body draws [emit i] at index [i] draws them all,
    in index order. *)
Lemma for_loop_paint (emit : nat -> list (Rectangle * Plot))
    (body : nat -> Image -> outcome Image) count from img :
  (forall i img', (from <= i < from + count)%nat ->
     body i img' = Returned (paint (emit i) img')) ->
  for_loop from count body img = Returned (paint (i ← seq from count; emit i) img).
Proof.
  revert from img.
  induction count as [|count IH]; intros from img Hbody; simpl.
  - rewrite paint_nil. done.
  - rewrite Hbody by lia. simpl. rewrite IH by (intros; apply Hbody; lia).
    rewrite paint_paint. done.
Qed.

Lemma draw_cell_covered plots canvases cols j i img :
  grid_covered cols plots canvases ->
  (j < length plots)%nat -> (i < cols)%nat ->
  draw_cell plots canvases j i img = Returned (paint (cell_draw plots canvases j i) img).
Proof.
  intros Hgrid Hj Hi.
  destruct (lookup_lt_is_Some_2 plots j Hj) as [row Hrow].
  destruct (Hgrid j row Hrow) as (Hlen & crow & Hcrow & Hclen).
  destruct (lookup_lt_is_Some_2 row i) as [p Hp]; [lia|].
  destruct (lookup_lt_is_Some_2 crow i) as [c Hc]; [lia|].
  unfold draw_cell, cell_draw, index.
  rewrite Hrow, Hcrow. simpl. rewrite Hp, Hc. simpl.
  destruct p as [pl|]; simpl; [done|]. rewrite paint_nil. done.
Qed.

Lemma draw_all_row_major plots canvases cols img :
  grid_covered cols plots canvases ->
  draw_all plots canvases (length plots) cols img
  = Returned (paint (row_major plots canvases (length plots) cols) img).
Proof.
  intros Hgrid. unfold draw_all, row_major.
  apply (for_loop_paint (fun j => i ← seq 0 cols; cell_draw plots canvases j i)).
  intros j imgj Hj.
  apply (for_loop_paint (fun i => cell_draw plots canvases j i)).
  intros i imgi Hi. eapply draw_cell_covered; [done|lia|lia].
Qed.

(** X11: on a non-empty grid whose rows are at least as long as the
    first, [Save] draws the entries of the first [len(plots[0])] columns
    row by row, from left to right within a row, each panel on the canvas
    laid out for its cell; nil entries are skipped, and nothing else is
    drawn.  The file written holds exactly that picture, of the size
    asked for. *)
Theorem Save_draws_row_major row plots width height filename fs canvases :
  vgimg_admits width height = true ->
  plot_Align (row :: plots) {| Rows := S (length plots); Cols := length row |}
    width height = Some canvases ->
  grid_covered (length row) (row :: plots) canvases ->
  os_Create_fault filename = None ->
  WriteTo_fault filename = None ->
  Save (row :: plots) width height filename fs
  = (Returned tt,
     <[filename := Some {| ImageWidth := width; ImageHeight := height;
                          drawn := row_major (row :: plots) canvases
                                     (S (length plots)) (length row) |}]> fs).
Proof.
  intros Hsize Halign Hgrid Hcreate Hwrite.
  unfold Save, mbind, Run_mbind, lift, tiles_of, index, vgimg_New, Align. simpl.
  rewrite Hsize. simpl. rewrite Halign.
  pose proof (draw_all_row_major (row :: plots) canvases (length row)
                {| ImageWidth := width; ImageHeight := height; drawn := [] |} Hgrid)
    as Hdraw.
  simpl in Hdraw. rewrite Hdraw.
  unfold os_Create, WriteTo. rewrite Hcreate, Hwrite.
  rewrite insert_insert_eq. done.
Qed.




End RendererGrid.

Section RendererReturns.
Context `{Backend}.

(** X13: [Save] returns only for a grid it can walk: the panel sequence
    is not empty, the size was accepted, [plot.Align] has laid the grid
    out, no row is shorter than the first, and the file could be created
    and written. *)
Theorem Save_returns_only_for_full_grid plots width height filename fs fs' :
  Save plots width height filename fs = (Returned tt, fs') ->
  exists row0, plots !! 0%nat = Some row0 /\
    Forall (fun row => (length row0 <= length row)%nat) plots /\
    vgimg_admits width height = true /\
    is_Some (plot_Align plots {| Rows := length plots; Cols := length row0 |}
               width height) /\
    os_Create_fault filename = None /\ WriteTo_fault filename = None.
Proof.
  unfold Save, mbind, Run_mbind, lift, tiles_of, index, vgimg_New, Align.
  destruct (plots !! 0%nat) as [row0|] eqn:Hrow0; simpl; [|done].
  destruct (vgimg_admits width height); [|done].
  destruct (plot_Align _ _ _ _) as [canvases|] eqn:Halign; [|done].
  destruct (draw_all _ _ _ _ _) as [img| | |] eqn:Hdraw; try done.
  unfold os_Create, WriteTo.
  destruct (os_Create_fault filename); [done|].
  destruct (WriteTo_fault filename); [done|]. intros _.
  exists row0. split; [done|]. split; [|split; [done|split; [eauto|done]]].
  apply Forall_lookup. intros j row Hrow.
  destruct (length row0) as [|k] eqn:Hlen; [lia|].
  destruct (draw_all_Returned_rows _ _ _ _ _ _ j k Hdraw) as (row' & p & Hrow' & Hp).
  - eapply lookup_lt_Some. exact Hrow.
  - lia.
  - simplify_eq. apply lookup_lt_Some in Hp. lia.
Qed.

(** The grid [main] builds, when [Save] returns: three draws, in order. *)
Lemma Save_main_plots_Returned memPlot ioPlot cpuPlot width height filename fs fs' :
  Save (main_plots memPlot ioPlot cpuPlot) width height filename fs = (Returned tt, fs') ->
  exists c0 c1 c2,
    fs' = <[filename := Some {| ImageWidth := width; ImageHeight := height;
                               drawn := [(c0, memPlot); (c1, ioPlot); (c2, cpuPlot)] |}]> fs.
Proof.
  unfold Save, mbind, Run_mbind, lift, tiles_of, index, vgimg_New, Align. simpl.
  destruct (vgimg_admits width height); [|done].
  destruct (plot_Align _ _ _ _) as [canvases|]; [|done]. simpl.
  unfold draw_all, draw_cell, index. simpl.
  destruct canvases as [|[|c0 r0] canvases]; simpl; try done.
  destruct canvases as [|[|c1 r1] canvases]; simpl; try done.
  destruct canvases as [|[|c2 r2] canvases]; simpl; try done.
  unfold os_Create, WriteTo.
  destruct (os_Create_fault filename); [done|].
  destruct (WriteTo_fault filename); [done|]. intros [= <-].
  exists c0, c1, c2. rewrite insert_insert_eq. done.
Qed.

End RendererReturns.

(** ** The program, from flags to file *)

Section MainTheorems.
Context {W : Type} `{Host W} `{PlotLib} `{Backend} `{VgLib}.

(** Splits a run of [main] at every point where it branches: the flags,
    and the result of each call it checks. *)
Ltac main_cases f :=
  unfold main, main_body;
  destruct (flag.help f) eqn:Hhelp; simpl;
    [|destruct (flag.version f) eqn:Hversion; simpl;
      [|destruct (Z.leb_spec (flag.pid f) 0) as [Hpid|Hpid]; simpl;
        [|unfold check, mbind, Run_mbind, lift, on_sampler, on_files, Println,
            usage, print, mret, Run_mret; simpl;
          repeat match goal with
          | |- context [vg_ParseLength ?s] =>
              destruct (vg_ParseLength s) eqn:?; simpl
          | |- context [flag.duration f =? 0] =>
              destruct (Z.eqb_spec (flag.duration f) 0); simpl
          | |- context [New ?a ?b ?c ?d ?m] =>
              destruct (New a b c d m) as [[?|?|?|] ?] eqn:?; simpl
          | |- context [MemPlot ?pi] => destruct (MemPlot pi) eqn:?; simpl
          | |- context [IoPlot ?pi] => destruct (IoPlot pi) eqn:?; simpl
          | |- context [CpuPlot ?pi] => destruct (CpuPlot pi) eqn:?; simpl
          | |- context [Save ?a ?b ?c ?d ?e] =>
              destruct (Save a b c d e) as [[[]|?|?|] ?] eqn:?; simpl
          end]]];
  unfold Println, usage, print; simpl.

(** X14: the program exits with a code only when it was asked to sample
    (no [-help], no [-v], a positive pid) and one of the calls it checks
    returned an error, the checked calls before it having succeeded: the
    parsing of the width or of the height, [New], a builder, or [Save].
    The code is then 1, and what the run has printed is what [main]
    prints up to that call, followed by the message of that error. *)
Theorem main_exit_prints_error fuel f (w : world W) code w' :
  main fuel f w = (Exited code, w') ->
  code = 1 /\
  flag.help f = false /\ flag.version f = false /\ 0 < flag.pid f /\
  exists err before,
    stopped_by fuel f w err before /\
    console w' = console w ++ before ++ [Stdout (Error err)].
Proof.
  main_cases f; intros [= <- <-]; simpl;
    (split; [done|]); (split; [done|]); (split; [done|]); (split; [done|]);
    eexists _, _;
    (split;
     [first [eapply width_refused; eassumption
            |eapply height_refused; eassumption
            |eapply New_failed; eassumption
            |eapply MemPlot_failed; eassumption
            |eapply IoPlot_failed; eassumption
            |eapply CpuPlot_failed; eassumption
            |eapply Save_failed; eassumption]
     |unfold announced; destruct (Z.eqb_spec (flag.duration f) 0);
      try lia; simpl; rewrite <- ?app_assoc; reflexivity]).
Qed.

(** X15: asked for help or for the version, or given no positive pid,
    the program prints one thing (the usage text, the version, or
    "invalid pid"), returns, and has neither looked at a process nor
    touched a file. *)
Theorem main_leaves_process_alone fuel f (w : world W) :
  flag.help f = true \/ flag.version f = true \/ flag.pid f <= 0 ->
  main fuel f w =
    (Ended,
     {| sampler := sampler w; files := files w;
        console := console w ++
          [if flag.help f then UsageText
           else if flag.version f then Stdout "version: 0.0.1"
           else Stdout "invalid pid"] |}).
Proof.
  intros Hidle. unfold main, main_body, usage, Println, print.
  destruct (flag.help f); [done|]. destruct (flag.version f); [done|].
  destruct (Z.leb_spec (flag.pid f) 0); [done|].
  destruct Hidle as [|[|]]; [done|done|lia].
Qed.


Lemma New_zero_duration_unreturned fuel pid interval (m : machine W) pi m' :
  New fuel pid 0 interval m <> (Returned pi, m').
Proof.
  unfold New, mbind, Run_mbind, lift, Go.quot.
  destruct (interval =? 0); [done|]. done.
Qed.


(** X17: when the program samples and ends well, the sampler returned a
    run, each builder returned its panel of that run, and the output file
    holds a picture of the parsed size with exactly three draws: the
    memory panel, the I/O panel and the CPU panel of the run, in this
    order.  The only line printed is the one that names the pid. *)
Theorem main_end_to_end fuel f (w : world W) w' :
  flag.help f = false -> flag.version f = false -> 0 < flag.pid f ->
  main fuel f w = (Ended, w') ->
  exists imgWidth imgHeight pi c0 c1 c2,
    vg_ParseLength (flag.width f) = Ans imgWidth /\
    vg_ParseLength (flag.height f) = Ans imgHeight /\
    New fuel (int32_of (flag.pid f)) (flag.duration f) (flag.interval f) (sampler w)
      = (Returned pi, sampler w') /\
    files w' =
      <[flag.output f :=
          Some {| ImageWidth := imgWidth; ImageHeight := imgHeight;
                  drawn := [(c0, panel_of Memory pi); (c1, panel_of IO pi);
                            (c2, panel_of CPU pi)] |}]> (files w) /\
    console w' =
      console w ++ [Stdout ("Collecting info from pid: " +:+ pretty (flag.pid f))].
Proof.
  intros Hh Hv Hp. main_cases f; try congruence; try lia;
    intros [= <-]; simpl.
  - exfalso. match goal with
             | e : flag.duration f = 0, Hnew : New _ _ _ _ _ = _ |- _ =>
                 rewrite e in Hnew; eapply New_zero_duration_unreturned; exact Hnew
             end.
  - repeat match goal with
           | Hb : MemPlot _ = Returned _ |- _ => apply (build_Returned Memory) in Hb as ->
           | Hb : IoPlot _ = Returned _ |- _ => apply (build_Returned IO) in Hb as ->
           | Hb : CpuPlot _ = Returned _ |- _ => apply (build_Returned CPU) in Hb as ->
           end.
    match goal with
    | Hsave : Save _ _ _ _ _ = _ |- _ =>
        apply Save_main_plots_Returned in Hsave as (c0 & c1 & c2 & ->)
    end.
    eexists _, _, _, c0, c1, c2. repeat split; eauto.
Qed.

(** X18: the process sampled is [int32(pid)].  Two runs whose pids are
    positive and agree on their low 32 bits end the same way, make the
    same calls to the host and leave the same files; only the pid printed
    differs. *)
Theorem main_pid_modulo fuel f p p' (w : world W) :
  0 < p -> 0 < p' -> int32_of p = int32_of p' ->
  (main fuel (with_pid p f) w).1 = (main fuel (with_pid p' f) w).1 /\
  sampler (main fuel (with_pid p f) w).2 = sampler (main fuel (with_pid p' f) w).2 /\
  files (main fuel (with_pid p f) w).2 = files (main fuel (with_pid p' f) w).2.
Proof.
  intros Hp Hp' Hlow. unfold main, main_body; simpl.
  destruct (flag.help f); [done|]. destruct (flag.version f); [done|].
  destruct (Z.leb_spec p 0); [lia|]. destruct (Z.leb_spec p' 0); [lia|].
  rewrite <- Hlow.
  unfold check, mbind, Run_mbind, lift, on_sampler, on_files, Println,
    usage, print, mret, Run_mret; simpl.
  repeat match goal with
         | |- context [vg_ParseLength ?s] =>
             destruct (vg_ParseLength s) eqn:?; simpl
         | |- context [flag.duration f =? 0] =>
             destruct (Z.eqb_spec (flag.duration f) 0); simpl
         | |- context [New ?a ?b ?c ?d ?m] =>
             destruct (New a b c d m) as [[?|?|?|] ?] eqn:?; simpl
         | |- context [MemPlot ?pi] => destruct (MemPlot pi) eqn:?; simpl
         | |- context [IoPlot ?pi] => destruct (IoPlot pi) eqn:?; simpl
         | |- context [CpuPlot ?pi] => destruct (CpuPlot pi) eqn:?; simpl
         | |- context [Save ?a ?b ?c ?d ?e] =>
             destruct (Save a b c d e) as [[[]|?|?|] ?] eqn:?; simpl
         end; done.
Qed.

End MainTheorems.

(** ** The further properties at concrete inputs *)

Lemma New_samples_within_duration_witness :
  exists pi m',
    New 8 42 3 1 (boot lively) = (Returned pi, m') /\
    elapsed_of pi = [0; 1; 2; 3] /\
    Forall (fun e => e <= 3) (elapsed_of pi).
Proof.
  eexists _, _. split; [vm_compute; reflexivity|]. split; [reflexivity|].
  eapply (New_samples_within_duration 8 42 3 1 (boot lively)).
  vm_compute. reflexivity.
Defined.

(** The process of [fading] exits during the run: two samples, then the
    answer "not running", one reading of the clock, and the run. *)
Lemma New_returns_once_not_running_witness :
  exists out m',
    New 8 42 3 1 (boot fading) = (out, m') /\
    (exists pi, out = Returned pi /\ elapsed_of pi = [0; 1]) /\
    exists new, calls m' = calls (boot fading) ++ new /\
      forall before after,
        new = before ++ CallIsRunning (Ans false) :: after ->
        (exists d, after = [CallSince d]) /\ (exists pi, out = Returned pi).
Proof.
  eexists _, _. split; [vm_compute; reflexivity|].
  split; [eexists; split; reflexivity|].
  apply (New_returns_once_not_running 8 42 3 1 (boot fading)).
  vm_compute. reflexivity.
Defined.

Lemma New_sleeps_once_per_sample_witness :
  exists out m',
    New 8 42 3 1 (boot lively) = (out, m') /\
    exists new, calls m' = calls (boot lively) ++ new /\
      Forall (fun d => d = 1) (sleeps new) /\
      forall pi, out = Returned pi -> length (Samples pi) = length (sleeps new).
Proof.
  eexists _, _. split; [vm_compute; reflexivity|].
  apply (New_sleeps_once_per_sample 8 42 3 1 (boot lively)).
  vm_compute. reflexivity.
Defined.

Lemma New_run_header_witness :
  exists pi m',
    New 8 42 3 1 (boot lively) = (Returned pi, m') /\
    Pid pi = 42 /\ SamplingInterval pi = 1 /\
    exists rest,
      calls m' = calls (boot lively)
                 ++ CallNewProcess 42 (Ans tt) :: CallNow (StartTime pi) :: rest.
Proof.
  eexists _, _. split; [vm_compute; reflexivity|].
  apply (New_run_header 8 42 3 1 (boot lively)).
  vm_compute. reflexivity.
Defined.

(** The default run of the tool, [-d 10s -i 50ms]: the quotient is 200. *)
Lemma New_bounded_run_witness :
  Go.int64 10000000000 /\ 10000000000 < Go.maxInt64 /\ 0 < 50000000 /\
  Go.quot 10000000000 50000000 = Returned 200 /\ 2 <= 200 /\
  exists out m',
    New 201 42 10000000000 50000000 (boot lively) = (out, m') /\
    ((Z.to_nat 200 < 201)%nat -> out <> Unfinished) /\
    (forall pi, out = Returned pi -> (length (Samples pi) <= Z.to_nat 200 + 1)%nat).
Proof.
  assert (Go.int64 10000000000) as Hd by (split; vm_compute; discriminate).
  assert (10000000000 < Go.maxInt64) as Hmax by reflexivity.
  split; [exact Hd|]. split; [exact Hmax|]. split; [lia|].
  split; [reflexivity|]. split; [lia|].
  destruct (New 201 42 10000000000 50000000 (boot lively)) as [out m'] eqn:Hrun.
  exists out, m'. split; [reflexivity|].
  apply (New_bounded_run 201 42 10000000000 50000000 200 (boot lively) out m'
           Hd Hmax ltac:(lia) eq_refl ltac:(lia)); [|exact Hrun].
  vm_compute. discriminate.
Defined.

Lemma New_negative_duration_witness :
  -10 < 0 /\
  exists out m',
    New 8 42 (-10) (-1) (boot lively) = (out, m') /\
    (exists pi, out = Returned pi) /\
    out <> Unfinished /\
    (forall pi, out = Returned pi -> Samples pi = []) /\
    exists new, calls m' = calls (boot lively) ++ new /\
      Forall (fun c => is_poll c = false) new.
Proof.
  split; [lia|]. eexists _, _. split; [vm_compute; reflexivity|].
  split; [eexists; reflexivity|].
  apply (New_negative_duration 8 42 (-10) (-1) (boot lively)); [lia|].
  vm_compute. reflexivity.
Defined.

Lemma builders_series_values_witness :
  Samples short_run !! 0%nat = Some one_sample /\
  @MemPlot lenient short_run = Returned short_mem_panel /\
  exists lRss lVms,
    legend_series "RSS" short_mem_panel = Some lRss /\
    legend_series "VMS" short_mem_panel = Some lVms /\
    plotter.Y <$> LineXYs lRss !! 0%nat = Some 2%float /\
    plotter.Y <$> LineXYs lVms !! 0%nat = Some 4%float.
Proof.
  split; [reflexivity|].
  assert (@MemPlot lenient short_run = Returned short_mem_panel) as Hbuilt
    by (vm_compute; reflexivity).
  split; [exact Hbuilt|].
  exact (proj1 (@builders_series_values lenient short_run 0%nat one_sample eq_refl)
           short_mem_panel Hbuilt).
Defined.

Lemma builders_legend_and_style_witness :
  @build lenient Memory short_run = Returned short_mem_panel /\
  plotters short_mem_panel = Grid :: (LinePlotter <$> series short_mem_panel) /\
  (Legend short_mem_panel).*2 = series short_mem_panel /\
  NoDup (Legend short_mem_panel).*1 /\
  Forall (fun l => LineWidth l = 1%float) (series short_mem_panel) /\
  NoDup (LineColor <$> series short_mem_panel).
Proof.
  assert (@build lenient Memory short_run = Returned short_mem_panel) as Hbuilt
    by (vm_compute; reflexivity).
  split; [exact Hbuilt|].
  exact (@builders_legend_and_style lenient Memory short_run short_mem_panel Hbuilt).
Defined.

Lemma builders_extend_witness :
  @build lenient CPU idle_run = Returned (cpu_panel idle_run) /\
  @build lenient CPU (append idle_run one_sample) = Returned short_cpu_panel /\
  Forall2 (fun l l' =>
             exists p, LineXYs l' = LineXYs l ++ [p] /\
               plotter.X p = Go.Seconds (interval one_sample) /\
               LineColor l' = LineColor l)
          (series (cpu_panel idle_run)) (series short_cpu_panel).
Proof.
  assert (@build lenient CPU idle_run = Returned (cpu_panel idle_run)) as Hidle
    by (vm_compute; reflexivity).
  assert (@build lenient CPU (append idle_run one_sample) = Returned short_cpu_panel)
    as Hone by (vm_compute; reflexivity).
  split; [exact Hidle|]. split; [exact Hone|].
  exact (@builders_extend lenient CPU idle_run one_sample _ _ Hidle Hone).
Defined.

Lemma patchy_grid_covered : grid_covered 2 patchy_grid patchy_canvases.
Proof.
  intros [|[|j]] row; simpl; intros [= <-]; simpl;
    (split; [lia|]); eexists; (split; [reflexivity|]); simpl; lia.
Qed.

(** Two panels on the diagonal of a 2 x 2 grid: two draws, the upper left
    cell first. *)
Lemma Save_draws_row_major_witness :
  @Save simple_backend patchy_grid 10 8 "pinfo.png" ∅
  = (Returned tt,
     {["pinfo.png" :=
         Some {| ImageWidth := 10; ImageHeight := 8;
                 drawn := [(unit_cell 0 0, short_mem_panel);
                           (unit_cell 1 1, short_cpu_panel)] |}]}).
Proof.
  rewrite (@Save_draws_row_major simple_backend
             [Some short_mem_panel; None] [[None; Some short_cpu_panel]]
             10%float 8%float "pinfo.png" ∅ patchy_canvases
             eq_refl eq_refl patchy_grid_covered eq_refl eq_refl).
  reflexivity.
Defined.


Lemma Save_returns_only_for_full_grid_witness :
  exists fs',
    @Save simple_backend patchy_grid 10 8 "pinfo.png" ∅ = (Returned tt, fs') /\
    exists row0, patchy_grid !! 0%nat = Some row0 /\
      Forall (fun row => (length row0 <= length row)%nat) patchy_grid /\
      @vgimg_admits simple_backend 10 8 = true /\
      is_Some (@plot_Align simple_backend patchy_grid
                 {| Rows := length patchy_grid; Cols := length row0 |} 10 8) /\
      @os_Create_fault simple_backend "pinfo.png" = None /\
      @WriteTo_fault simple_backend "pinfo.png" = None.
Proof.
  eexists. split; [vm_compute; reflexivity|].
  eapply (@Save_returns_only_for_full_grid simple_backend patchy_grid
            10%float 8%float "pinfo.png" ∅).
  vm_compute. reflexivity.
Defined.

(** A pid the system does not know. *)
Lemma main_exit_prints_error_witness :
  exists w',
    @main fake fake_Host lenient simple_backend two_sizes 8 short_flags
      (start_world unknown ∅) = (Exited 1, w') /\
    console w' = [Stdout "Collecting info from pid: 42";
                  Stdout "process does not exist"] /\
    1 = 1 /\
    flag.help short_flags = false /\ flag.version short_flags = false /\
    0 < flag.pid short_flags /\
    exists err before,
      @stopped_by fake fake_Host lenient simple_backend two_sizes
        8 short_flags (start_world unknown ∅) err before /\
      console w' = console (start_world unknown ∅) ++ before ++ [Stdout (Error err)].
Proof.
  eexists. split; [vm_compute; reflexivity|]. split; [reflexivity|].
  apply (@main_exit_prints_error fake fake_Host lenient simple_backend two_sizes
           8 short_flags (start_world unknown ∅)).
  vm_compute. reflexivity.
Defined.

(** The program run without flags: the default pid is -1. *)
Lemma main_leaves_process_alone_witness :
  flag.pid default_flags <= 0 /\
  @main fake fake_Host lenient simple_backend two_sizes 8 default_flags
    (start_world lively ∅)
  = (Ended, {| sampler := boot lively; files := ∅;
               console := [Stdout "invalid pid"] |}).
Proof.
  split; [vm_compute; discriminate|].
  apply (@main_leaves_process_alone fake fake_Host lenient simple_backend two_sizes
           8 default_flags (start_world lively ∅)).
  right. right. vm_compute. discriminate.
Defined.


Lemma main_end_to_end_witness :
  exists w' imgWidth imgHeight pi c0 c1 c2,
    @main fake fake_Host lenient simple_backend two_sizes 8 short_flags
      (start_world lively ∅) = (Ended, w') /\
    @vg_ParseLength two_sizes "10cm" = Ans imgWidth /\
    @vg_ParseLength two_sizes "8cm" = Ans imgHeight /\
    New 8 (int32_of 42) 3 1 (boot lively) = (Returned pi, sampler w') /\
    files w' =
      <["pinfo.png" :=
          Some {| ImageWidth := imgWidth; ImageHeight := imgHeight;
                  drawn := [(c0, panel_of Memory pi); (c1, panel_of IO pi);
                            (c2, panel_of CPU pi)] |}]> ∅ /\
    console w' = [] ++ [Stdout ("Collecting info from pid: " +:+ pretty 42)].
Proof.
  destruct (@main fake fake_Host lenient simple_backend two_sizes 8 short_flags
              (start_world lively ∅)) as [e w'] eqn:Hrun.
  assert (e = Ended) as -> by (vm_compute in Hrun; congruence).
  exists w'.
  destruct (@main_end_to_end fake fake_Host lenient simple_backend two_sizes
              8 short_flags (start_world lively ∅) w' eq_refl eq_refl ltac:(done) Hrun)
    as (imgWidth & imgHeight & pi & c0 & c1 & c2 & Hw & Hh & Hnew & Hfiles & Hcon).
  exists imgWidth, imgHeight, pi, c0, c1, c2.
  split; [reflexivity|]. split; [exact Hw|]. split; [exact Hh|].
  split; [exact Hnew|]. split; [exact Hfiles|exact Hcon].
Defined.

Lemma main_pid_modulo_witness :
  0 < 42 /\ 0 < 4294967338 /\ int32_of 42 = int32_of 4294967338 /\
  (@main fake fake_Host lenient simple_backend two_sizes 8
     (with_pid 42 short_flags) (start_world lively ∅)).1
  = (@main fake fake_Host lenient simple_backend two_sizes 8
       (with_pid 4294967338 short_flags) (start_world lively ∅)).1 /\
  sampler (@main fake fake_Host lenient simple_backend two_sizes 8
             (with_pid 42 short_flags) (start_world lively ∅)).2
  = sampler (@main fake fake_Host lenient simple_backend two_sizes 8
               (with_pid 4294967338 short_flags) (start_world lively ∅)).2 /\
  files (@main fake fake_Host lenient simple_backend two_sizes 8
           (with_pid 42 short_flags) (start_world lively ∅)).2
  = files (@main fake fake_Host lenient simple_backend two_sizes 8
             (with_pid 4294967338 short_flags) (start_world lively ∅)).2.
Proof.
  split; [lia|]. split; [lia|]. split; [reflexivity|].
  apply (@main_pid_modulo fake fake_Host lenient simple_backend two_sizes
           8 short_flags 42 4294967338 (start_world lively ∅)); [lia|lia|reflexivity].
Defined.
